(** * A shallow embedding of [scraper_final.py]

    The scraper reads a listing page of stock-exchange disclosures, follows
    every entry to its detail page, collects the text of the page and of its
    attachments, and emits one record per scraped URL.

    Python values are modelled as follows.
    - [str] and [bytes] are both [string]: a [str] is held in its UTF-8
      encoding, so a character beyond ASCII takes several bytes.
    - An exception is a value of [exn]; a call that may raise returns
      a [result].
    - The network is a fixed function from URLs to responses.  A function that
      issues requests returns, next to its result, the list of URLs it
      requested, in order (type [M]).
    - The libraries the scraper calls (requests, the HTML parser behind
      BeautifulSoup, urllib's [urljoin], pdfplumber, lxml, zipfile, the UTF-8
      codec) are fields of the class [Libraries]; what BeautifulSoup does with
      a parsed tree (CSS selection, [find], [get], [get_text]) is modelled on
      the tree. *)

From Stdlib Require Import List String Ascii Bool Arith Lia.
Import ListNotations.
Open Scope string_scope.

(** ** Python strings *)

Module Py.

(** [s.split(sep)] for a one-character separator: never the empty list. *)
Fixpoint split (sep : ascii) (s : string) : list string :=
  match s with
  | EmptyString => [""]
  | String c s' =>
      if Ascii.eqb c sep then "" :: split sep s'
      else match split sep s' with
           | [] => [String c ""]
           | w :: ws => String c w :: ws
           end
  end.

(** [l[0]] and [l[-1]] on the result of a [split]; the default is never used
    because [split] returns at least one field. *)
Definition first (l : list string) : string := hd "" l.
Definition final (l : list string) : string := last l "".

(** [s.startswith(p)] *)
Definition startswith (s p : string) : bool := String.prefix p s.

(** [s.endswith(suffix)]: some tail of [s] is [suffix]. *)
Fixpoint endswith (s suffix : string) : bool :=
  if String.eqb s suffix then true
  else match s with
       | EmptyString => false
       | String _ s' => endswith s' suffix
       end.

(** [c.isspace()] for a character of one byte: the ASCII blanks. *)
Definition isspace (c : ascii) : bool :=
  let n := nat_of_ascii c in
  (((9 <=? n) && (n <=? 13)) || ((28 <=? n) && (n <=? 32)))%nat.

(** The blanks of three bytes: U+1680, U+2000 to U+200A, U+2028, U+2029,
    U+202F, U+205F and U+3000. *)
Definition isspace3 (x y z : nat) : bool :=
  ((x =? 225) && (y =? 154) && (z =? 128)
   || (x =? 226) && (y =? 128)
      && ((128 <=? z) && (z <=? 138) || (z =? 168) || (z =? 169)
          || (z =? 175))
   || (x =? 226) && (y =? 129) && (z =? 159)
   || (x =? 227) && (y =? 128) && (z =? 128))%nat.

(** The number of bytes of the character at the head of [s] when
    [isspace()] holds of it, and 0 otherwise.  The blanks of two bytes are
    U+0085 and U+00A0. *)
Definition space_length (s : string) : nat :=
  match s with
  | EmptyString => 0
  | String a s1 =>
      if isspace a then 1
      else match s1 with
           | EmptyString => 0
           | String b s2 =>
               if ((nat_of_ascii a =? 194)
                   && ((nat_of_ascii b =? 133) || (nat_of_ascii b =? 160)))%nat
               then 2
               else match s2 with
                    | EmptyString => 0
                    | String c _ =>
                        if isspace3 (nat_of_ascii a) (nat_of_ascii b)
                                    (nat_of_ascii c)
                        then 3 else 0
                    end
           end
  end.

(** [s.lstrip()]: [skip] counts the bytes still to drop of a blank whose
    first byte has been met. *)
Fixpoint lstrip_skip (skip : nat) (s : string) : string :=
  match s with
  | EmptyString => ""
  | String _ s' =>
      match skip with
      | S k => lstrip_skip k s'
      | O => match space_length s with
             | O => s
             | S k => lstrip_skip k s'
             end
      end
  end.

Definition lstrip (s : string) : string := lstrip_skip 0 s.

(** Whether [s] is made of blanks only. *)
Fixpoint all_space_skip (skip : nat) (s : string) : bool :=
  match s with
  | EmptyString => (skip =? 0)%nat
  | String _ s' =>
      match skip with
      | S k => all_space_skip k s'
      | O => match space_length s with
             | O => false
             | S k => all_space_skip k s'
             end
      end
  end.

Definition all_space (s : string) : bool := all_space_skip 0 s.

(** [s.rstrip()] *)
Fixpoint rstrip (s : string) : string :=
  match s with
  | EmptyString => ""
  | String c s' => if all_space s then "" else String c (rstrip s')
  end.

(** [s.strip()] *)
Definition strip (s : string) : string := rstrip (lstrip s).

(** [s.split()]: the words of [s] between blanks; [cur] is the word being
    read. *)
Fixpoint words_skip (skip : nat) (cur : string) (s : string) : list string :=
  match s with
  | EmptyString => if String.eqb cur "" then [] else [cur]
  | String c s' =>
      match skip with
      | S k => words_skip k cur s'
      | O => match space_length s with
             | O => words_skip 0 (cur ++ String c "") s'
             | S k => if String.eqb cur "" then words_skip k "" s'
                      else cur :: words_skip k "" s'
             end
      end
  end.

Definition words (s : string) : list string := words_skip 0 "" s.

(** [''.join(l)] *)
Definition join (l : list string) : string := String.concat "" l.

End Py.

(** ** Exceptions and the two effects *)

Inductive exn : Type :=
| HTTPError (url : string) (status : nat)
| ConnectionError (url : string)
| KeyError (key : string)
| AttributeError (what : string)
| BadZipFile
| UnicodeDecodeError
| LibraryError (what : string).

Inductive result (A : Type) : Type :=
| Ok (a : A)
| Raise (e : exn).
Arguments Ok {A} a.
Arguments Raise {A} e.

Definition rbind {A B} (r : result A) (f : A -> result B) : result B :=
  match r with
  | Ok a => f a
  | Raise e => Raise e
  end.

(** A computation that issues HTTP requests: its result and the URLs it
    requested, oldest first. *)
Definition M (A : Type) : Type := (result A * list string)%type.

Definition ret {A} (a : A) : M A := (Ok a, []).
Definition lift {A} (r : result A) : M A := (r, []).
Definition bind {A B} (m : M A) (f : A -> M B) : M B :=
  match m with
  | (Ok a, log) => let (r, log') := f a in (r, (log ++ log')%list)
  | (Raise e, log) => (Raise e, log)
  end.

Definition outcome {A} (m : M A) : result A := fst m.
Definition requested {A} (m : M A) : list string := snd m.

Declare Scope py_scope.
Delimit Scope py_scope with py.
Notation "x <- m ;; k" := (bind m (fun x => k))
  (at level 61, m at next level, right associativity) : py_scope.
Notation "x <-? r ;; k" := (rbind r (fun x => k))
  (at level 61, r at next level, right associativity) : py_scope.
Open Scope py_scope.

(** [for x in l: acc = body(acc, x)], stopping at the first exception. *)
Fixpoint for_each {A S} (l : list A) (acc : S) (body : S -> A -> M S) : M S :=
  match l with
  | [] => ret acc
  | x :: l' => acc' <- body acc x ;; for_each l' acc' body
  end.

Fixpoint rfor_each {A S} (l : list A) (acc : S) (body : S -> A -> result S)
  : result S :=
  match l with
  | [] => Ok acc
  | x :: l' => acc' <-? body acc x ;; rfor_each l' acc' body
  end.

(** ** The parsed page (BeautifulSoup) *)

(** A node of the parsed tree.  [Tag] carries the element name, its attribute
    dictionary and its children; [NavigableString] is a text node; [Comment]
    stands for the strings [get_text] leaves out (comments, declarations).
    The [class] attribute is kept as written: a whitespace-separated string. *)
#[warnings="-register-all"]
Inductive node : Type :=
| Tag (name : string) (attrs : list (string * string)) (contents : list node)
| NavigableString (s : string)
| Comment (s : string).

(** The [BeautifulSoup] object: the top-level nodes of the document. *)
Definition soup : Type := list node.

(** An element as the scraper holds it: the node with its ancestors, the
    parent first.  BeautifulSoup reaches the ancestors through [.parent]. *)
Record element : Type := Element {
  el_node : node;
  el_parents : list node
}.

(** [tag.descendants]: the nodes below [n] in document order, each with its
    ancestors. *)
Fixpoint descendants_of (parents : list node) (n : node) : list element :=
  match n with
  | Tag _ _ contents =>
      flat_map (fun c => Element c (n :: parents)
                         :: descendants_of (n :: parents) c) contents
  | _ => []
  end.

Definition descendants (e : element) : list element :=
  descendants_of (el_parents e) (el_node e).

Definition soup_descendants (doc : soup) : list element :=
  flat_map (fun n => Element n [] :: descendants_of [] n) doc.

Fixpoint dict_get (d : list (string * string)) (k : string) : option string :=
  match d with
  | [] => None
  | (k', v) :: d' => if String.eqb k' k then Some v else dict_get d' k
  end.

(** [tag.get(key)]: [None] when the attribute is absent. *)
Definition get (e : element) (key : string) : option string :=
  match el_node e with
  | Tag _ attrs _ => dict_get attrs key
  | _ => None
  end.

(** One compound of a CSS selector: [name], [#id], [.class ...]. *)
Record compound : Type := Compound {
  c_name : option string;
  c_id : option string;
  c_classes : list string
}.

Definition tag_ (name : string) : compound := Compound (Some name) None [].
Definition tag_classes (name : string) (cl : list string) : compound :=
  Compound (Some name) None cl.
Definition id_ (i : string) : compound := Compound None (Some i) [].

Definition mem (x : string) (l : list string) : bool :=
  existsb (String.eqb x) l.

Definition matches_compound (c : compound) (n : node) : bool :=
  match n with
  | Tag name attrs _ =>
      match c_name c with Some t => String.eqb name t | None => true end
      && match c_id c with
         | Some i => match dict_get attrs "id" with
                     | Some v => String.eqb v i
                     | None => false
                     end
         | None => true
         end
      && forallb (fun cl => match dict_get attrs "class" with
                            | Some v => mem cl (Py.words v)
                            | None => false
                            end) (c_classes c)
  | _ => false
  end.

(** A selector [c1 > c2 > ... > cn] is the list [[c1; ...; cn]].  An element
    matches when it matches [cn], its parent matches the compound before, and
    so on; [rchain] is the selector reversed, [stack] the element followed by
    its ancestors. *)
Fixpoint matches_rev (rchain : list compound) (stack : list node) : bool :=
  match rchain, stack with
  | [], _ => true
  | c :: cs, n :: ps => matches_compound c n && matches_rev cs ps
  | _ :: _, [] => false
  end.

Definition matches (sel : list compound) (e : element) : bool :=
  matches_rev (rev sel) (el_node e :: el_parents e).

(** [soup.select(sel)], [soup.select_one(sel)] and [tag.select(sel)]: the
    matching descendants in document order. *)
Definition soup_select (doc : soup) (sel : list compound) : list element :=
  filter (matches sel) (soup_descendants doc).

Definition soup_select_one (doc : soup) (sel : list compound)
  : option element :=
  hd_error (soup_select doc sel).

Definition select (e : element) (sel : list compound) : list element :=
  filter (matches sel) (descendants e).

(** [tag.find('a', href=True)]: the first [a] below [tag] that has an [href]
    attribute, whatever its value. *)
Definition is_a_with_href (e : element) : bool :=
  match el_node e with
  | Tag name attrs _ =>
      String.eqb name "a"
      && match dict_get attrs "href" with Some _ => true | None => false end
  | _ => false
  end.

Definition find_a_href (e : element) : option element :=
  find is_a_with_href (descendants e).

(** The strings [get_text] collects below an element, in document order. *)
Definition strings_of (e : element) : list string :=
  flat_map (fun d => match el_node d with
                     | NavigableString s => [s]
                     | _ => []
                     end) (descendants e).

(** [tag.text] *)
Definition text (e : element) : string := Py.join (strings_of e).

(** [tag.get_text(strip=True)]: every string stripped, the empty ones
    dropped, joined without a separator. *)
Definition get_text_strip (e : element) : string :=
  Py.join (filter (fun s => negb (String.eqb s ""))
                  (map Py.strip (strings_of e))).

(** ** The libraries and the network *)

Definition bytes : Type := string.

Record Response : Type := mkResponse {
  status_code : nat;
  content : bytes
}.

(** One member of a zip archive, as [zipfile] presents it: its name, the
    error [ZipFile.open] raises on it (if any), and what reading the opened
    member returns. *)
Record ZipMember : Type := mkZipMember {
  filename : string;
  open_error : option exn;
  member_data : result bytes
}.

(** An opened archive: its members in the order of the central directory. *)
Definition ZipArchive : Type := list ZipMember.

Class Libraries : Type := {
  (** [requests.get(url)]: the response, or the transport failure. *)
  requests_get : string -> result Response;
  (** [BeautifulSoup(content, 'html.parser')] *)
  BeautifulSoup : bytes -> soup;
  (** [urllib.parse.urljoin(base, url)]; [url] is [None] when it comes from
      a missing attribute. *)
  urljoin : string -> option string -> string;
  (** [pdfplumber.open(buffer).pages], each with its [extract_text()]:
      [None] or a string.  A stream is identified with the bytes it holds. *)
  pdfplumber_pages : bytes -> result (list (option string));
  (** [etree.HTML(content).xpath("//text()")] *)
  etree_HTML_text_nodes : bytes -> result (list string);
  (** [zipfile.ZipFile(BytesIO(content))] *)
  ZipFile : bytes -> result ZipArchive;
  (** [b.decode('utf-8')] *)
  decode_utf8 : bytes -> result string
}.

(** [response.raise_for_status()]: [HTTPError] on a 4xx or 5xx status. *)
Definition raise_for_status (url : string) (r : Response) : result Response :=
  if ((400 <=? status_code r) && (status_code r <? 600))%nat
  then Raise (HTTPError url (status_code r))
  else Ok r.

(** [response = requests.get(url); response.raise_for_status()]: the request
    is recorded whatever its outcome. *)
Definition fetch `{Libraries} (url : string) : M Response :=
  (r <-? requests_get url ;; raise_for_status url r, [url]).

(** [zfile.namelist()] *)
Definition namelist (z : ZipArchive) : list string := map filename z.

(** [zfile.open(name)]: [NameToInfo] maps a name to the last member that
    carries it. *)
Fixpoint name_to_info (z : ZipArchive) (name : string) : option ZipMember :=
  match z with
  | [] => None
  | m :: z' =>
      match name_to_info z' name with
      | Some m' => Some m'
      | None => if String.eqb (filename m) name then Some m else None
      end
  end.

Definition zip_open (z : ZipArchive) (name : string) : result ZipMember :=
  match name_to_info z name with
  | None => Raise (KeyError name)
  | Some m => match open_error m with
              | Some e => Raise e
              | None => Ok m
              end
  end.

(** [file.read()] *)
Definition read (m : ZipMember) : result bytes := member_data m.

(** ** The scraper *)

Section Scraper.
Context `{Libraries}.

(** The listing selector ["#search-result > li > strong > a"]. *)
Definition sel_articles : list compound :=
  [id_ "search-result"; tag_ "li"; tag_ "strong"; tag_ "a"].

(** ["body > section.mainContainer.padding-top-0.padding-bottom-20 >
     div.container > div > div > div > div"] *)
Definition sel_main_text_container : list compound :=
  [tag_ "body";
   tag_classes "section" ["mainContainer"; "padding-top-0"; "padding-bottom-20"];
   tag_classes "div" ["container"];
   tag_ "div"; tag_ "div"; tag_ "div"; tag_ "div"].

(** The same selector followed by ["> table"]. *)
Definition sel_tables : list compound :=
  (sel_main_text_container ++ [tag_ "table"])%list.

(** ["tr > td > li > a"] *)
Definition sel_attachment_links : list compound :=
  [tag_ "tr"; tag_ "td"; tag_ "li"; tag_ "a"].

Definition listing_url (date : string) : string :=
  "https://www.gpw.pl/komunikaty?categoryRaports=EBI,ESPI&typeRaports=RB,P,Q,O,R&searchText=&date="
  ++ date.

(** One dictionary [{'Title': ..., 'URL': ...}] of [results]. *)
Record Article : Type := mkArticle {
  Title : string;
  URL : string
}.

(** A [pandas.DataFrame] built from a list of such dictionaries: its columns
    are the keys met in the dictionaries, so the frame of an empty list has
    no column at all. *)
Record DataFrame : Type := mkDataFrame {
  columns : list string;
  rows : list Article
}.

Definition pd_DataFrame (results : list Article) : DataFrame :=
  match results with
  | [] => mkDataFrame [] []
  | _ :: _ => mkDataFrame ["Title"; "URL"] results
  end.

(** [df['URL']] *)
Definition df_URL (df : DataFrame) : result (list string) :=
  if mem "URL" (columns df) then Ok (map URL (rows df))
  else Raise (KeyError "URL").

Definition scrape_articles (date : string) : M DataFrame :=
  let base_url := listing_url date in
  response <- fetch base_url ;;
  let page := BeautifulSoup (content response) in
  let articles := soup_select page sel_articles in
  let results :=
    map (fun article =>
           mkArticle (Py.strip (text article))
                     (urljoin base_url (get article "href")))
        articles in
  ret (pd_DataFrame results).

Definition get_text_from_pdf (buffer : bytes) : result string :=
  pages <-? pdfplumber_pages buffer ;;
  Ok (fold_left
        (fun pdf_text page_text =>
           match page_text with
           | Some t => if String.eqb t "" then pdf_text else pdf_text ++ t
           | None => pdf_text
           end)
        pages "").

Definition get_text_from_xhtml (content : bytes) : result string :=
  nodes <-? etree_HTML_text_nodes content ;;
  Ok (Py.join nodes).

(** The body of the loop over [zfile.namelist()]. *)
Definition zip_entry (zfile : ZipArchive) (text : string) (file_name : string)
  : result string :=
  file <-? zip_open zfile file_name ;;
  if Py.endswith file_name ".txt" then
    data <-? read file ;;
    s <-? decode_utf8 data ;;
    Ok (text ++ s)
  else if Py.endswith file_name ".pdf" then
    data <-? read file ;;
    s <-? get_text_from_pdf data ;;
    Ok (text ++ s)
  else if Py.endswith file_name ".xhtml" then
    data <-? read file ;;
    s <-? get_text_from_xhtml data ;;
    Ok (text ++ s)
  else Ok text.

Definition get_text_from_zip (content : bytes) : result string :=
  zfile <-? ZipFile content ;;
  rfor_each (namelist zfile) "" (zip_entry zfile).

(** [url.split('/')[-1].split(',')[0].split('.')[-1]]: the text after the
    last period of what precedes the first comma of the last path segment. *)
Definition attachment_type_of (url : string) : string :=
  let filename := Py.final (Py.split "/" url) in
  Py.final (Py.split "." (Py.first (Py.split "," filename))).

Definition get_text_from_attachment (url : string) : M string :=
  response <- fetch url ;;
  let attachment_type := attachment_type_of url in
  if String.eqb attachment_type "pdf" then
    lift (get_text_from_pdf (content response))
  else if String.eqb attachment_type "xhtml" then
    lift (get_text_from_xhtml (content response))
  else if String.eqb attachment_type "zip" then
    lift (get_text_from_zip (content response))
  else ret "".

Definition base_attachment_url : string :=
  "https://infostrefa.com/espi/pl/reports/view/".

(** [found_tables]: the tables of the content container that hold an [a]
    with an [href]. *)
Definition found_tables (page : soup) : list element :=
  let tables := soup_select page sel_tables in
  filter (fun table => match find_a_href table with
                       | Some _ => true
                       | None => false
                       end) tables.

(** [attachment_links]: the links of the second such table; no link at all
    when there are fewer than two. *)
Definition attachment_links (page : soup) : list element :=
  let found := found_tables page in
  if (2 <=? List.length found)%nat then
    match nth_error found 1 with
    | Some correct_table => select correct_table sel_attachment_links
    | None => []
    end
  else [].

(** The URL an attachment is fetched from. *)
Definition attachment_url (url href : string) : string :=
  if Py.startswith href "attachment" then base_attachment_url ++ href
  else urljoin url (Some href).

(** The body of the loop over [attachment_links]. *)
Definition scrape_attachment (url : string) (attachment_texts : string)
  (attachment_link : element) : M string :=
  match get attachment_link "href" with
  | None =>
      lift (Raise (AttributeError
                     "'NoneType' object has no attribute 'startswith'"))
  | Some href =>
      let attachment_url := attachment_url url href in
      let attachment_type := attachment_type_of href in
      if negb (String.eqb attachment_type "xades") then
        t <- get_text_from_attachment attachment_url ;;
        ret (attachment_texts ++ t)
      else ret attachment_texts
  end.

Definition scrape_text_from_url (url : string) : M string :=
  response <- fetch url ;;
  let page := BeautifulSoup (content response) in
  let main_text_container := soup_select_one page sel_main_text_container in
  let main_text := match main_text_container with
                   | Some c => get_text_strip c
                   | None => ""
                   end in
  attachment_texts <-
    for_each (attachment_links page) "" (scrape_attachment url) ;;
  ret (main_text ++ attachment_texts).

(** [results[url] = text] on a dictionary kept in insertion order: a key
    already present keeps its place and takes the new value. *)
Fixpoint dict_set (d : list (string * string)) (k v : string)
  : list (string * string) :=
  match d with
  | [] => [(k, v)]
  | (k', v') :: d' =>
      if String.eqb k' k then (k', v) :: d' else (k', v') :: dict_set d' k v
  end.

Definition scrape_text_from_urls (df : DataFrame)
  : M (list (string * string)) :=
  urls <- lift (df_URL df) ;;
  for_each urls []
    (fun results url =>
       t <- scrape_text_from_url url ;;
       ret (dict_set results url t)).

(** One object [{"url": ..., "content": ...}] of the output. *)
Record OutputRecord : Type := mkRecord {
  rec_url : string;
  rec_content : string
}.

(** The script: scrape the listing of [date], scrape every article, and
    arrange the dictionary as the list [data]. *)
Definition main (date : string) : M (list OutputRecord) :=
  df <- scrape_articles date ;;
  text_results <- scrape_text_from_urls df ;;
  ret (map (fun item => mkRecord (fst item) (snd item)) text_results).

End Scraper.

(** ** Concrete sites

    A site is given by tables: what each URL answers, what the HTML parser
    makes of each page, what [urljoin] returns on the relative destinations
    that occur (a missing or empty destination gives the base, any other
    destination is taken to be absolute already), and
    what pdfplumber, lxml and zipfile make of each payload.  A URL or payload
    that is not in its table fails the way the library does. *)

Fixpoint assoc {A} (l : list (string * A)) (k : string) : option A :=
  match l with
  | [] => None
  | (k', v) :: l' => if String.eqb k' k then Some v else assoc l' k
  end.

Fixpoint is_ascii (s : string) : bool :=
  match s with
  | EmptyString => true
  | String c s' => (nat_of_ascii c <? 128)%nat && is_ascii s'
  end.

Record Site : Type := mkSite {
  site_responses : list (string * Response);
  site_pages : list (bytes * soup);
  site_joins : list (string * list (string * string));
  site_pdfs : list (bytes * list (option string));
  site_xhtmls : list (bytes * list string);
  site_zips : list (bytes * ZipArchive)
}.

Definition site_libraries (s : Site) : Libraries := {|
  requests_get u :=
    match assoc (site_responses s) u with
    | Some r => Ok r
    | None => Raise (ConnectionError u)
    end;
  BeautifulSoup b :=
    match assoc (site_pages s) b with Some p => p | None => [] end;
  urljoin base url :=
    match url with
    | None => base
    | Some u =>
        if String.eqb u "" then base
        else match assoc (site_joins s) base with
             | Some t => match assoc t u with Some r => r | None => u end
             | None => u
             end
    end;
  pdfplumber_pages b :=
    match assoc (site_pdfs s) b with
    | Some p => Ok p
    | None => Raise (LibraryError "PDFSyntaxError")
    end;
  etree_HTML_text_nodes b :=
    match assoc (site_xhtmls s) b with
    | Some t => Ok t
    | None => Raise (LibraryError "XMLSyntaxError")
    end;
  ZipFile b :=
    match assoc (site_zips s) b with
    | Some z => Ok z
    | None => Raise BadZipFile
    end;
  decode_utf8 b := if is_ascii b then Ok b else Raise UnicodeDecodeError
|}.

(** A detail page whose content container holds [inner]:
    [<html><body><section class='mainContainer padding-top-0 padding-bottom-20'>
     <div class='container'><div><div><div><div> inner ...]. *)
Definition div (contents : list node) : node := Tag "div" [] contents.

Definition detail_page (inner : list node) : soup :=
  [Tag "html" []
     [Tag "body" []
        [Tag "section"
             [("class", "mainContainer padding-top-0 padding-bottom-20")]
             [Tag "div" [("class", "container")]
                  [div [div [div [div inner]]]]]]]].

(** [<a href='h'>label</a>], empty when [label] is. *)
Definition a_href (h label : string) : node :=
  Tag "a" [("href", h)]
      (if String.eqb label "" then [] else [NavigableString label]).

(** [<table><tr><td><li>link</li>...</td></tr></table>] *)
Definition link_table (links : list node) : node :=
  Tag "table" []
      [Tag "tr" [] [Tag "td" [] (map (fun l => Tag "li" [] [l]) links)]].

(** [<table><tr><td>link...</td></tr></table>]: links outside list items. *)
Definition plain_table (links : list node) : node :=
  Tag "table" [] [Tag "tr" [] [Tag "td" [] links]].

Definition ok_response (body : bytes) : Response := mkResponse 200 body.

(** *** A report with one text attachment

    The page reads "Q1 results"; a first table links to the listing, the
    second lists [report.txt], which holds "Revenue up 5%". *)
Definition q1_url : string := "https://www.gpw.pl/komunikat?geru_id=1".
Definition q1_html : bytes := "<html>q1</html>".
Definition q1_page : soup :=
  detail_page [NavigableString "Q1 results";
               plain_table [a_href "/komunikaty" ""];
               link_table [a_href "report.txt" ""]].
Definition q1_site : Site := {|
  site_responses :=
    [(q1_url, ok_response q1_html);
     ("https://www.gpw.pl/report.txt", ok_response "Revenue up 5%")];
  site_pages := [(q1_html, q1_page)];
  site_joins := [(q1_url, [("report.txt", "https://www.gpw.pl/report.txt")])];
  site_pdfs := []; site_xhtmls := []; site_zips := []
|}.

(** *** A page with three link-bearing tables *)
Definition three_url : string := "https://www.gpw.pl/komunikat?geru_id=3".
Definition three_page : soup :=
  detail_page [NavigableString "Annual report";
               link_table [a_href "stray1.pdf" "first"];
               link_table [a_href "attachment/one.pdf" "one";
                           a_href "/docs/two.xhtml" "two"];
               link_table [a_href "stray3.pdf" "third"]].

Definition three_html : bytes := "<html>three</html>".
Definition three_site : Site := {|
  site_responses := [(three_url, ok_response three_html)];
  site_pages := [(three_html, three_page)];
  site_joins :=
    [(three_url, [("/docs/two.xhtml", "https://www.gpw.pl/docs/two.xhtml")])];
  site_pdfs := []; site_xhtmls := []; site_zips := []
|}.

(** *** A page whose attachment table lists a Word file and a signature *)
Definition doc_url : string := "https://www.gpw.pl/komunikat?geru_id=6".
Definition doc_html : bytes := "<html>doc</html>".
Definition doc_page : soup :=
  detail_page [plain_table [a_href "/komunikaty" ""];
               link_table [a_href "notes.doc" ""; a_href "sig.xades" ""]].
Definition doc_site : Site := {|
  site_responses :=
    [(doc_url, ok_response doc_html);
     ("https://www.gpw.pl/notes.doc", ok_response "word bytes")];
  site_pages := [(doc_html, doc_page)];
  site_joins := [(doc_url, [("notes.doc", "https://www.gpw.pl/notes.doc");
                            ("sig.xades", "https://www.gpw.pl/sig.xades")])];
  site_pdfs := []; site_xhtmls := []; site_zips := []
|}.

(** *** Archives *)
Definition member (name : string) (data : bytes) : ZipMember :=
  mkZipMember name None (Ok data).

(** [a.txt, b.pdf, c.xades] in that order. *)
Definition abc_zip : bytes := "PK abc".
Definition abc_archive : ZipArchive :=
  [member "a.txt" "alpha"; member "b.pdf" "%PDF b"; member "c.xades" "<sig/>"].

(** An archive that holds only [inner.zip], which holds [a.txt]. *)
Definition outer_zip : bytes := "PK outer".
Definition inner_zip : bytes := "PK inner".
Definition outer_archive : ZipArchive := [member "inner.zip" inner_zip].
Definition inner_archive : ZipArchive := [member "a.txt" "hello"].

Definition zip_site : Site := {|
  site_responses := []; site_pages := []; site_joins := [];
  site_pdfs := [("%PDF b", [Some "beta "; None; Some "gamma"])];
  site_xhtmls := [];
  site_zips := [(abc_zip, abc_archive); (outer_zip, outer_archive);
                (inner_zip, inner_archive)]
|}.

(** *** Listings *)
Definition listing_page (items : list node) : soup :=
  [Tag "html" []
     [Tag "body" [] [Tag "ul" [("id", "search-result")] items]]].

Definition listing_item (href title : string) : node :=
  Tag "li" [] [Tag "strong" [] [a_href href title]].

Definition may7 : string := "07-05-2024".

(** A date without any disclosure. *)
Definition empty_html : bytes := "<html>no entries</html>".
Definition empty_site : Site := {|
  site_responses := [(listing_url may7, ok_response empty_html)];
  site_pages := [(empty_html, listing_page [])];
  site_joins := []; site_pdfs := []; site_xhtmls := []; site_zips := []
|}.

(** A date on which the same disclosure is listed twice. *)
Definition twice_html : bytes := "<html>twice</html>".
Definition plain_html : bytes := "<html>plain</html>".
Definition twice_site : Site := {|
  site_responses :=
    [(listing_url may7, ok_response twice_html);
     ("https://www.gpw.pl/komunikat?geru_id=7", ok_response plain_html)];
  site_pages :=
    [(twice_html, listing_page [listing_item "komunikat?geru_id=7" " First ";
                                listing_item "komunikat?geru_id=7" "Again"]);
     (plain_html, detail_page [NavigableString " Plain text "])];
  site_joins :=
    [(listing_url may7,
      [("komunikat?geru_id=7", "https://www.gpw.pl/komunikat?geru_id=7")])];
  site_pdfs := []; site_xhtmls := []; site_zips := []
|}.

(** ** Vocabulary of the specification *)

(** The closed set of type tags of the data model. *)
Inductive TypeTag : Type := text_tag | pdf | markup | archive | unknown.

(** The extractor [get_text_from_attachment] selects for a derived type:
    the branches of its [if]/[elif] chain. *)
Definition dispatch_tag (attachment_type : string) : TypeTag :=
  if String.eqb attachment_type "pdf" then pdf
  else if String.eqb attachment_type "xhtml" then markup
  else if String.eqb attachment_type "zip" then archive
  else unknown.

(** The tag of a top-level attachment, from its name-like string. *)
Definition resolve (name_like : string) : TypeTag :=
  dispatch_tag (attachment_type_of name_like).

(** The extractor the archive loop selects for an entry name: the branches
    of the [if]/[elif] chain of [get_text_from_zip]. *)
Definition zip_entry_tag (file_name : string) : TypeTag :=
  if Py.endswith file_name ".txt" then text_tag
  else if Py.endswith file_name ".pdf" then pdf
  else if Py.endswith file_name ".xhtml" then markup
  else unknown.

(** An entry the archive loop extracts text from. *)
Definition supported_entry (file_name : string) : bool :=
  Py.endswith file_name ".txt" || Py.endswith file_name ".pdf"
  || Py.endswith file_name ".xhtml".

(** Whether [c] occurs in [s]. *)
Fixpoint contains (c : ascii) (s : string) : bool :=
  match s with
  | EmptyString => false
  | String a s' => Ascii.eqb a c || contains c s'
  end.

(** The substring up to (excluding) the first [c], all of [s] without one. *)
Fixpoint before_first (c : ascii) (s : string) : string :=
  match s with
  | EmptyString => ""
  | String a s' => if Ascii.eqb a c then "" else String a (before_first c s')
  end.

(** The substring after the last [c], all of [s] without one. *)
Fixpoint after_last (c : ascii) (s : string) : string :=
  match s with
  | EmptyString => ""
  | String a s' =>
      if contains c s' then after_last c s'
      else if Ascii.eqb a c then s' else s
  end.

(** The last character of a string, if any. *)
Fixpoint last_char (s : string) : option ascii :=
  match s with
  | EmptyString => None
  | String a s' => match last_char s' with
                   | Some b => Some b
                   | None => Some a
                   end
  end.




(** The destinations of a list of links, those without one left out. *)
Definition hrefs (links : list element) : list string :=
  flat_map (fun l => match get l "href" with
                     | Some h => [h]
                     | None => []
                     end) links.

Definition not_xades (href : string) : bool :=
  negb (String.eqb (attachment_type_of href) "xades").

(** The elements of [l] in the order of their first occurrence. *)
Fixpoint first_occurrences (l : list string) : list string :=
  match l with
  | [] => []
  | x :: l' =>
      x :: filter (fun y => negb (String.eqb y x)) (first_occurrences l')
  end.

(** The keys of a dictionary after [d[k] = v]. *)
Definition add_key (keys : list string) (k : string) : list string :=
  if mem k keys then keys else (keys ++ [k])%list.

Section Vocabulary.
Context `{Libraries}.

(** The text the archive loop extracts from one opened member. *)
Definition member_text (file_name : string) (file : ZipMember)
  : result string :=
  if Py.endswith file_name ".txt" then
    data <-? read file ;; decode_utf8 data
  else if Py.endswith file_name ".pdf" then
    data <-? read file ;; get_text_from_pdf data
  else if Py.endswith file_name ".xhtml" then
    data <-? read file ;; get_text_from_xhtml data
  else Ok "".

End Vocabulary.

(** ** Further vocabulary and sites *)

(** The main text of a parsed page: the text of its content container, the
    empty text without one. *)
Definition main_text_of (page : soup) : string :=
  match soup_select_one page sel_main_text_container with
  | Some c => get_text_strip c
  | None => ""
  end.

(** The number of bytes a character takes, read off its first byte; 0 for
    a byte that cannot start a character. *)
Definition lead_length (c : ascii) : nat :=
  let n := nat_of_ascii c in
  (if n <? 128 then 1
   else if n <? 192 then 0
   else if n <? 224 then 2
   else if n <? 240 then 3
   else if n <? 248 then 4
   else 0)%nat.

Definition is_continuation (c : ascii) : bool :=
  let n := nat_of_ascii c in ((128 <=? n) && (n <? 192))%nat.

(** Whether the bytes of [s] fall into whole characters: every first byte
    is followed by the continuation bytes it announces.  The UTF-8 encoding
    of a [str] is always so. *)
Fixpoint utf8_framed_skip (need : nat) (s : string) : bool :=
  match s with
  | EmptyString => (need =? 0)%nat
  | String c s' =>
      match need with
      | S k => is_continuation c && utf8_framed_skip k s'
      | O => match lead_length c with
             | O => false
             | S k => utf8_framed_skip k s'
             end
      end
  end.

Definition utf8_framed (s : string) : bool := utf8_framed_skip 0 s.

(** Whether [s] starts with [k] continuation bytes. *)
Fixpoint continues (k : nat) (s : string) : bool :=
  match k with
  | O => true
  | S k' => match s with
            | EmptyString => false
            | String c s' => is_continuation c && continues k' s'
            end
  end.

(** The texts of the pages of a PDF that have one, in page order. *)
Definition page_texts (pages : list (option string)) : list string :=
  flat_map (fun page_text => match page_text with
                             | Some t => [t]
                             | None => []
                             end) pages.

(** *** A report with a PDF, an XHTML file and a signature *)
Definition full_url : string := "https://www.gpw.pl/komunikat?geru_id=10".
Definition full_html : bytes := "<html>full</html>".
Definition full_page : soup :=
  detail_page [NavigableString " Report ";
               plain_table [a_href "/komunikaty" "Back"];
               link_table [a_href "attachment/one.pdf" "";
                           a_href "two.xhtml" "";
                           a_href "sig.xades" ""]].
Definition full_site : Site := {|
  site_responses :=
    [(full_url, ok_response full_html);
     ("https://infostrefa.com/espi/pl/reports/view/attachment/one.pdf",
      ok_response "%PDF one");
     ("https://www.gpw.pl/two.xhtml", ok_response "<x>two</x>")];
  site_pages := [(full_html, full_page)];
  site_joins := [(full_url, [("two.xhtml", "https://www.gpw.pl/two.xhtml");
                             ("sig.xades", "https://www.gpw.pl/sig.xades")])];
  site_pdfs := [("%PDF one", [Some "P1 "; Some ""; None; Some "P2 "])];
  site_xhtmls := [("<x>two</x>", ["X1 "; "X2"])];
  site_zips := []
|}.

(** *** A report whose second attachment is gone *)
Definition gone_url : string := "https://www.gpw.pl/komunikat?geru_id=11".
Definition gone_html : bytes := "<html>gone</html>".
Definition gone_page : soup :=
  detail_page [NavigableString "Report";
               plain_table [a_href "/komunikaty" ""];
               link_table [a_href "a.pdf" ""; a_href "gone.pdf" "";
                           a_href "c.pdf" ""]].
Definition gone_site : Site := {|
  site_responses :=
    [(gone_url, ok_response gone_html);
     ("https://www.gpw.pl/a.pdf", ok_response "%PDF a");
     ("https://www.gpw.pl/gone.pdf", mkResponse 404 "Not Found");
     ("https://www.gpw.pl/c.pdf", ok_response "%PDF c")];
  site_pages := [(gone_html, gone_page)];
  site_joins := [(gone_url, [("a.pdf", "https://www.gpw.pl/a.pdf");
                             ("gone.pdf", "https://www.gpw.pl/gone.pdf");
                             ("c.pdf", "https://www.gpw.pl/c.pdf")])];
  site_pdfs := [("%PDF a", [Some "A"]); ("%PDF c", [Some "C"])];
  site_xhtmls := []; site_zips := []
|}.

(** *** A report whose attachment table holds an anchor without destination *)
Definition anchor_url : string := "https://www.gpw.pl/komunikat?geru_id=12".
Definition anchor_html : bytes := "<html>anchor</html>".
Definition anchor_page : soup :=
  detail_page [NavigableString "Report";
               plain_table [a_href "/komunikaty" ""];
               link_table [Tag "a" [("name", "top")] [];
                           a_href "a.pdf" ""]].
Definition anchor_site : Site := {|
  site_responses :=
    [(anchor_url, ok_response anchor_html);
     ("https://www.gpw.pl/a.pdf", ok_response "%PDF a")];
  site_pages := [(anchor_html, anchor_page)];
  site_joins := [(anchor_url, [("a.pdf", "https://www.gpw.pl/a.pdf")])];
  site_pdfs := [("%PDF a", [Some "A"])];
  site_xhtmls := []; site_zips := []
|}.

(** *** A page without the content container *)
Definition bare_url : string := "https://www.gpw.pl/komunikat?geru_id=13".
Definition bare_html : bytes := "<html>bare</html>".
Definition bare_page : soup :=
  [Tag "html" []
     [Tag "body" []
        [Tag "p" [] [NavigableString "Moved"];
         link_table [a_href "a.pdf" "a"];
         link_table [a_href "b.pdf" "b"]]]].
Definition bare_site : Site := {|
  site_responses := [(bare_url, ok_response bare_html)];
  site_pages := [(bare_html, bare_page)];
  site_joins := []; site_pdfs := []; site_xhtmls := []; site_zips := []
|}.

(** *** A page in Polish

    The text ends in a character of two bytes whose second byte is 133; it
    is preceded by a no-break space (U+00A0) and followed by an em space
    (U+2003); a second node holds an ideographic space (U+3000) only. *)
Definition utf8 (codes : list nat) : string :=
  string_of_list_ascii (map ascii_of_nat codes).

Definition polish_page : soup :=
  detail_page
    [NavigableString (utf8 [194; 160] ++ " Raport ze spółką"
                      ++ utf8 [226; 128; 131] ++ " ");
     Tag "p" [] [NavigableString (utf8 [227; 128; 128])];
     Tag "p" [] [NavigableString "Zarząd"]].

(** *** An archive with two entries of one name

    The listing is [a.txt, b.txt, a.txt]; the two entries [a.txt] hold
    different texts. *)
Definition twins_zip : bytes := "PK twins".
Definition twins_archive : ZipArchive :=
  [member "a.txt" "first "; member "b.txt" "mid "; member "a.txt" "last "].
Definition twins_site : Site := {|
  site_responses := []; site_pages := []; site_joins := [];
  site_pdfs := []; site_xhtmls := [];
  site_zips := [(twins_zip, twins_archive)]
|}.

(** *** An archive with an entry that is not UTF-8 *)
Definition latin_zip : bytes := "PK latin".
Definition latin_archive : ZipArchive :=
  [member "a.txt" "alpha";
   member "b.txt" (String (ascii_of_nat 233) "t" ++ String (ascii_of_nat 233) "");
   member "c.txt" "gamma"].
Definition latin_site : Site := {|
  site_responses := []; site_pages := []; site_joins := [];
  site_pdfs := []; site_xhtmls := [];
  site_zips := [(latin_zip, latin_archive)]
|}.

(** *** A listing whose second disclosure answers 500 *)
Definition down_html : bytes := "<html>down</html>".
Definition down_site : Site := {|
  site_responses :=
    [(listing_url may7, ok_response down_html);
     ("https://www.gpw.pl/komunikat?geru_id=7", ok_response plain_html);
     ("https://www.gpw.pl/komunikat?geru_id=8", mkResponse 500 "");
     ("https://www.gpw.pl/komunikat?geru_id=9", ok_response plain_html)];
  site_pages :=
    [(down_html, listing_page [listing_item "komunikat?geru_id=7" "Seven";
                               listing_item "komunikat?geru_id=8" "Eight";
                               listing_item "komunikat?geru_id=9" "Nine"]);
     (plain_html, detail_page [NavigableString " Plain text "])];
  site_joins :=
    [(listing_url may7,
      [("komunikat?geru_id=7", "https://www.gpw.pl/komunikat?geru_id=7");
       ("komunikat?geru_id=8", "https://www.gpw.pl/komunikat?geru_id=8");
       ("komunikat?geru_id=9", "https://www.gpw.pl/komunikat?geru_id=9")])];
  site_pdfs := []; site_xhtmls := []; site_zips := []
|}.

(** ** The corpus file *)

(** A JSON value as [json.load] returns it.  The members of an object are
    its dictionary: every key occurs once.  A number is kept as written. *)
#[warnings="-register-all"]
Inductive json : Type :=
| JNull
| JBool (b : bool)
| JNumber (literal : string)
| JString (s : string)
| JArray (items : list json)
| JObject (members : list (string * json)).

(** What the scraper dumps to [scraped_articles.json]: the list [data] of
    objects [{"url": ..., "content": ...}]. *)
Definition corpus_json (data : list OutputRecord) : json :=
  JArray (map (fun r => JObject [("url", JString (rec_url r));
                                 ("content", JString (rec_content r))])
              data).

(** * The summarising scripts

    [single_agent.py] and [multi_agent.py] read a JSON file, ask a chat
    model for summaries and write a JSON file.  The chat service and the
    file system are the fields of [Services]; a run returns, next to its
    outcome, the completions it asked for and the files it wrote, in order.
    Text outside ASCII is held in its UTF-8 encoding. *)

Module Agents.

Inductive error : Type :=
| KeyError (key : string)
| TypeError (subject : json)
| ValueError (message : string)
| IndexError
| OSError (path : string)
| JSONDecodeError (path : string)
| OpenAIError (what : string).

Inductive ended (A : Type) : Type :=
| Returned (a : A)
| Raised (e : error).
Arguments Returned {A} a.
Arguments Raised {A} e.

(** One dictionary [{"role": ..., "content": ...}] of [messages]. *)
Record message : Type := Message {
  msg_role : string;
  msg_content : json
}.

Inductive event : Type :=
| ChatCompletion (model : string) (messages : list message)
    (temperature : nat)
| Dump (path : string) (value : json) (indent : nat).

Definition Run (A : Type) : Type := (ended A * list event)%type.

Definition ret {A} (a : A) : Run A := (Returned a, []).
Definition raise {A} (e : error) : Run A := (Raised e, []).
Definition lift {A} (r : ended A) : Run A := (r, []).
Definition bind {A B} (m : Run A) (f : A -> Run B) : Run B :=
  match m with
  | (Returned a, log) => let (r, log') := f a in (r, (log ++ log')%list)
  | (Raised e, log) => (Raised e, log)
  end.

Definition result_of {A} (m : Run A) : ended A := fst m.
Definition events {A} (m : Run A) : list event := snd m.

Declare Scope agent_scope.
Delimit Scope agent_scope with agent.
Notation "x <- m ;; k" := (bind m (fun x => k))
  (at level 61, m at next level, right associativity) : agent_scope.
Local Open Scope agent_scope.

(** [for x in l: acc = body(acc, x)], stopping at the first exception. *)
Fixpoint for_each {A S} (l : list A) (acc : S) (body : S -> A -> Run S)
  : Run S :=
  match l with
  | [] => ret acc
  | x :: l' => acc' <- body acc x ;; for_each l' acc' body
  end.

Class Services : Type := {
  (** [client.chat.completions.create(model=..., messages=...,
      temperature=...)]: the [message.content] of every choice of the
      response ([None] for a message without content), or the exception. *)
  chat_completions_create :
    string -> list message -> nat -> ended (list (option string));
  (** [open(path, 'r', encoding='utf-8')] followed by [json.load]. *)
  json_load : string -> ended json;
  (** [open(path, 'w', encoding='utf-8')]: the exception, if any. *)
  open_for_writing : string -> option error;
  (** [str(value)] for a loaded value that is not a string. *)
  str_of_value : json -> string
}.

Fixpoint lookup (members : list (string * json)) (key : string)
  : option json :=
  match members with
  | [] => None
  | (k, v) :: members' =>
      if String.eqb k key then Some v else lookup members' key
  end.

(** [value[key]] for a string [key]: only a dictionary can be indexed by
    a string. *)
Definition subscript (value : json) (key : string) : ended json :=
  match value with
  | JObject members =>
      match lookup members key with
      | Some v => Returned v
      | None => Raised (KeyError key)
      end
  | _ => Raised (TypeError value)
  end.

(** A summary as a JSON value: [None] is [null]. *)
Definition json_of_content (c : option string) : json :=
  match c with
  | Some s => JString s
  | None => JNull
  end.

(** [f"{value}"] *)
Definition format_value `{Services} (value : json) : string :=
  match value with
  | JString s => s
  | _ => str_of_value value
  end.

Definition format_content (c : option string) : string :=
  match c with
  | Some s => s
  | None => "None"
  end.

Definition newline : string := String "010" "".

Section Shared.
Context `{Services}.

(** The function both scripts define: one completion at temperature 0,
    and the content of its first choice. *)
Definition get_chat_completion (messages : list message) (model : string)
  : Run (option string) :=
  (match chat_completions_create model messages 0 with
   | Returned choices =>
       match choices with
       | c :: _ => Returned c
       | [] => Raised IndexError
       end
   | Raised e => Raised e
   end,
   [ChatCompletion model messages 0]).

Definition load_json_file (file_path : string) : Run json :=
  lift (json_load file_path).

(** [with open(path, 'w', encoding='utf-8') as outfile:
     json.dump(value, outfile, indent=...)] *)
Definition dump_to_file (path : string) (value : json) (indent : nat)
  : Run unit :=
  match open_for_writing path with
  | Some e => raise e
  | None => (Returned tt, [Dump path value indent])
  end.

End Shared.

Module SingleAgent.
Section Script.
Context `{Services}.

Definition default_model : string := "gpt-4-turbo".

Definition system_prompt : string :=
  "Jesteś ekspertem finansowym. Podsumuj załączony dokument finansowy w zwięzłych punktach.".

Definition summarize_article (text : json) (model : string)
  (additional_instructions : option string) : Run (option string) :=
  let system_message_content :=
    match additional_instructions with
    | Some instructions =>
        system_prompt ++ newline ++ newline ++ instructions
    | None => system_prompt
    end in
  let messages := [Message "system" (JString system_message_content);
                   Message "user" text] in
  get_chat_completion messages model.

(** The body shared by the two branches: read [url] and [content],
    summarise, append [{"url": url, "summary": summary}]. *)
Definition summarize_one (results : list json) (article : json)
  : Run (list json) :=
  url <- lift (subscript article "url") ;;
  content <- lift (subscript article "content") ;;
  summary <- summarize_article content default_model None ;;
  ret (results ++ [JObject [("url", url);
                            ("summary", json_of_content summary)]])%list.

Definition summarize_articles_from_file (input_file_path : string)
  (output_file_path : string) : Run unit :=
  data <- load_json_file input_file_path ;;
  results <-
    match data with
    | JObject _ => summarize_one [] data
    | JArray articles => for_each articles [] summarize_one
    | _ => raise (ValueError
                    "Unsupported JSON format. Expected list or dict.")
    end ;;
  dump_to_file output_file_path (JArray results) 4.

(** The script. *)
Definition main : Run unit :=
  summarize_articles_from_file "scraped_article_single.json" "summary.json".

End Script.
End SingleAgent.

Module MultiAgent.
Section Script.
Context `{Services}.

Definition first_agent_prompt : string :=
  "Jesteś ekspertem finansowym. Podsumuj załączony dokument finansowy w zwięzłych punktach.".

Definition second_agent_prompt : string :=
  "Jesteś skrupulatnym audytorem. Porównaj poniższy dokument finansowy z jego podsumowaniem. "
  ++ "Zidentyfikuj wszelkie ważne brakujące informacje i zasugeruj ulepszenia.".

Definition final_agent_prompt : string :=
  "Jesteś ekspertem finansowym. Podsumuj poniższy dokument finansowy w zwięzłych punktach. Pamiętaj, aby uwzględnić wszelkie informacje zwrotne przekazane przez drugiego agenta i poprawić poprzednie podsumowanie.".

(** The user message of the auditor:
    [f"Document:\n{text}\n\nSummary:\n{summary}"]. *)
Definition audit_request (text : json) (summary : option string) : string :=
  "Document:" ++ newline ++ format_value text ++ newline ++ newline
  ++ "Summary:" ++ newline ++ format_content summary.

(** The user message of the refinement:
    [f"Document:\n{text}\n\nFeedback:\n{feedback}\n\nSummary:\n{summary}"]. *)
Definition refine_request (text : json) (feedback summary : option string)
  : string :=
  "Document:" ++ newline ++ format_value text ++ newline ++ newline
  ++ "Feedback:" ++ newline ++ format_content feedback ++ newline ++ newline
  ++ "Summary:" ++ newline ++ format_content summary.

Definition refine_summary_with_feedback (text : json) (model : string)
  : Run (option string) :=
  summary <-
    get_chat_completion [Message "system" (JString first_agent_prompt);
                         Message "user" text] model ;;
  feedback <-
    get_chat_completion
      [Message "system" (JString second_agent_prompt);
       Message "user" (JString (audit_request text summary))] model ;;
  refined_summary <-
    get_chat_completion
      [Message "system" (JString final_agent_prompt);
       Message "user" (JString (refine_request text feedback summary))]
      model ;;
  ret refined_summary.

Definition summarize_and_refine_article (file_path output_file_path : string)
  (model : string) : Run unit :=
  data <- load_json_file file_path ;;
  content <- lift (subscript data "content") ;;
  final_summary <- refine_summary_with_feedback content model ;;
  dump_to_file output_file_path
    (JObject [("summary", json_of_content final_summary)]) 4.

(** The script: the model is the default of
    [summarize_and_refine_article]. *)
Definition main : Run unit :=
  summarize_and_refine_article "scraped_article_single.json"
    "multi_agent_summary.json" "gpt-4-turbo".

End Script.
End MultiAgent.

(** An event that asks for a completion, as opposed to a file written. *)
Definition is_completion (ev : event) : bool :=
  match ev with
  | ChatCompletion _ _ _ => true
  | Dump _ _ _ => false
  end.

(** A concrete service: an echoing model and a few files. *)
Definition echo_services : Services := {|
  chat_completions_create model messages temperature :=
    match messages with
    | [_; Message _ (JString text)] =>
        Returned [Some ("Summary of " ++ text)]
    | _ => Raised (OpenAIError "BadRequestError")
    end;
  json_load path :=
    if String.eqb path "scraped_articles.json" then
      Returned (corpus_json
                  [mkRecord "https://www.gpw.pl/komunikat?geru_id=1" "One";
                   mkRecord "https://www.gpw.pl/komunikat?geru_id=2" "Two"])
    else if String.eqb path "scraped_article_single.json" then
      Returned (JObject [("url", JString "https://www.gpw.pl/komunikat?geru_id=1");
                         ("content", JString "One")])
    else if String.eqb path "one_article_list.json" then
      Returned (JArray
                  [JObject [("url", JString "https://www.gpw.pl/komunikat?geru_id=1");
                            ("content", JString "One")]])
    else if String.eqb path "broken.json" then
      Returned (JArray [JObject [("url", JString "u1");
                                 ("content", JString "One")];
                        JObject [("url", JString "u2")];
                        JObject [("url", JString "u3");
                                 ("content", JString "Three")]])
    else if String.eqb path "number.json" then Returned (JNumber "42")
    else Raised (OSError path);
  open_for_writing path := None;
  str_of_value value := "?"
|}.

End Agents.

(** * Properties *)

(** ** Strings *)

Lemma split_not_nil (c : ascii) (s : string) : Py.split c s <> [].
Proof.
  destruct s as [|a s]; simpl; [discriminate|].
  destruct (Ascii.eqb a c); [discriminate|].
  destruct (Py.split c s); discriminate.
Qed.

Lemma split_without (c : ascii) (s : string) :
  contains c s = false -> Py.split c s = [s].
Proof.
  induction s as [|a s IH]; simpl; [reflexivity|].
  intros Hc. apply orb_false_iff in Hc as [Ha Hs].
  rewrite Ha, (IH Hs). reflexivity.
Qed.

Lemma split_with (c : ascii) (s : string) :
  contains c s = true -> exists w x rest, Py.split c s = w :: x :: rest.
Proof.
  induction s as [|a s IH]; simpl; [discriminate|].
  destruct (Ascii.eqb a c) eqn:Ha; simpl.
  - intros _. destruct (Py.split c s) as [|x rest] eqn:E.
    + now destruct (split_not_nil c s).
    + now exists "", x, rest.
  - intros Hs. destruct (IH Hs) as (w & x & rest & E).
    rewrite E. now exists (String a w), x, rest.
Qed.

Lemma after_last_without (c : ascii) (s : string) :
  contains c s = false -> after_last c s = s.
Proof.
  destruct s as [|a s]; simpl; [reflexivity|].
  intros Hc. apply orb_false_iff in Hc as [Ha Hs].
  now rewrite Hs, Ha.
Qed.

Lemma before_first_without (c : ascii) (s : string) :
  contains c s = false -> before_first c s = s.
Proof.
  induction s as [|a s IH]; simpl; [reflexivity|].
  intros Hc. apply orb_false_iff in Hc as [Ha Hs].
  now rewrite Ha, (IH Hs).
Qed.

(** [split(c)[0]] is the part before the first [c]. *)
Lemma first_split (c : ascii) (s : string) :
  Py.first (Py.split c s) = before_first c s.
Proof.
  unfold Py.first.
  induction s as [|a s IH]; simpl; [reflexivity|].
  destruct (Ascii.eqb a c); [reflexivity|].
  destruct (Py.split c s) as [|w ws] eqn:E.
  - now destruct (split_not_nil c s).
  - simpl in *. now rewrite IH.
Qed.

(** [split(c)[-1]] is the part after the last [c]. *)
Lemma final_split (c : ascii) (s : string) :
  Py.final (Py.split c s) = after_last c s.
Proof.
  unfold Py.final.
  induction s as [|a s IH]; [reflexivity|].
  cbn [Py.split after_last].
  destruct (contains c s) eqn:Hs.
  - destruct (split_with c s Hs) as (w & x & rest & E).
    rewrite E in *. rewrite <- IH.
    destruct (Ascii.eqb a c); reflexivity.
  - rewrite (split_without c s Hs).
    destruct (Ascii.eqb a c); reflexivity.
Qed.

Lemma contains_app (c : ascii) (s t : string) :
  contains c (s ++ t) = contains c s || contains c t.
Proof.
  induction s as [|a s IH]; simpl; [reflexivity|].
  now rewrite IH, orb_assoc.
Qed.

(** A suffix free of [c] stays behind the last [c]. *)
Lemma after_last_app (c : ascii) (s t : string) :
  contains c t = false -> after_last c (s ++ t) = after_last c s ++ t.
Proof.
  intros Ht. induction s as [|a s IH]; simpl.
  - now apply after_last_without.
  - rewrite contains_app, Ht, orb_false_r.
    destruct (contains c s); [exact IH|].
    destruct (Ascii.eqb a c); reflexivity.
Qed.

Lemma after_last_sep (c : ascii) (s t : string) :
  contains c t = false -> after_last c (s ++ String c t) = t.
Proof.
  intros Ht. induction s as [|a s IH]; simpl.
  - now rewrite Ht, Ascii.eqb_refl.
  - rewrite contains_app. simpl. rewrite Ascii.eqb_refl, orb_true_r.
    exact IH.
Qed.

(** [endswith] finds the suffix exactly when the string ends with it. *)
Lemma endswith_app (s suffix : string) :
  Py.endswith s suffix = true <-> exists p, s = p ++ suffix.
Proof.
  split.
  - induction s as [|a s IH]; cbn [Py.endswith].
    + destruct (String.eqb "" suffix) eqn:E; [|discriminate].
      apply String.eqb_eq in E. subst. now exists "".
    + destruct (String.eqb (String a s) suffix) eqn:E.
      * apply String.eqb_eq in E. subst. now exists "".
      * intros Hs. destruct (IH Hs) as [p ->]. now exists (String a p).
  - intros [p ->]. induction p as [|a p IH].
    + destruct suffix; cbn [Py.endswith append]; now rewrite String.eqb_refl.
    + cbn [Py.endswith append]. rewrite IH. now destruct (String.eqb _ _).
Qed.

Lemma last_char_app (p s : string) :
  s <> "" -> last_char (p ++ s) = last_char s.
Proof.
  intros Hs. induction p as [|a p IH]; simpl; [reflexivity|].
  rewrite IH. destruct s as [|b s]; [congruence|].
  simpl. now destruct (last_char s).
Qed.

Lemma endswith_last_char (s suffix : string) :
  suffix <> "" -> Py.endswith s suffix = true ->
  last_char s = last_char suffix.
Proof.
  intros Hne Hs. apply endswith_app in Hs as [p ->].
  now apply last_char_app.
Qed.

Lemma append_empty_r (s : string) : s ++ "" = s.
Proof. induction s as [|a s IH]; simpl; [reflexivity|now rewrite IH]. Qed.

Lemma append_assoc (s t u : string) : (s ++ t) ++ u = s ++ (t ++ u).
Proof. induction s as [|a s IH]; simpl; [reflexivity|now rewrite IH]. Qed.

Lemma join_cons (x : string) (l : list string) :
  Py.join (x :: l) = x ++ Py.join l.
Proof.
  unfold Py.join. destruct l as [|y l]; simpl; [now rewrite append_empty_r|].
  reflexivity.
Qed.

(** What follows the last [d] holds no character the whole string lacks. *)
Lemma contains_after_last (c d : ascii) (s : string) :
  contains c s = false -> contains c (after_last d s) = false.
Proof.
  induction s as [|a s IH]; simpl; [reflexivity|].
  intros Hc. apply orb_false_iff in Hc as [Ha Hs].
  destruct (contains d s); [now apply IH|].
  destruct (Ascii.eqb a d); [exact Hs|].
  simpl. now rewrite Ha, Hs.
Qed.

(** The derived type, in the words of the specification. *)
Lemma attachment_type_of_spec (name : string) :
  attachment_type_of name
  = after_last "." (before_first "," (after_last "/" name)).
Proof.
  unfold attachment_type_of.
  now rewrite !final_split, first_split.
Qed.

(** A comma-free name that ends with [.ext] has derived type [ext]. *)
Lemma attachment_type_of_suffix (name ext : string) :
  contains "," name = false ->
  contains "/" ext = false -> contains "." ext = false ->
  Py.endswith name (String "." ext) = true ->
  attachment_type_of name = ext.
Proof.
  intros Hcomma Hslash Hdot Hend.
  apply endswith_app in Hend as [p ->].
  rewrite attachment_type_of_spec.
  rewrite after_last_app by (simpl; exact Hslash).
  rewrite before_first_without.
  - now apply after_last_sep.
  - rewrite contains_app in *. apply orb_false_iff in Hcomma as [Hp He].
    now rewrite (contains_after_last _ _ _ Hp), He.
Qed.

(** ** Archives *)

Section Archives.
Context `{Libraries}.

(** One turn of the archive loop: open the member, extract the text its
    name calls for, append it. *)
Lemma zip_entry_member_text (zfile : ZipArchive) (text file_name : string) :
  zip_entry zfile text file_name
  = (file <-? zip_open zfile file_name ;;
     s <-? member_text file_name file ;;
     Ok (text ++ s)).
Proof.
  unfold zip_entry, member_text.
  destruct (zip_open zfile file_name) as [file|e]; simpl; [|reflexivity].
  destruct (Py.endswith file_name ".txt").
  { destruct (read file) as [data|e]; simpl; [|reflexivity].
    now destruct (decode_utf8 data). }
  destruct (Py.endswith file_name ".pdf").
  { destruct (read file) as [data|e]; simpl; [|reflexivity].
    now destruct (get_text_from_pdf data). }
  destruct (Py.endswith file_name ".xhtml").
  { destruct (read file) as [data|e]; simpl; [|reflexivity].
    now destruct (get_text_from_xhtml data). }
  simpl. now rewrite append_empty_r.
Qed.

Lemma member_text_unsupported (file_name : string) (file : ZipMember) :
  supported_entry file_name = false -> member_text file_name file = Ok "".
Proof.
  unfold supported_entry, member_text. intros Hs.
  apply orb_false_iff in Hs as [Hs Hx].
  apply orb_false_iff in Hs as [Ht Hp].
  now rewrite Ht, Hp, Hx.
Qed.

(** The loop accumulates the texts of the supported entries, in order. *)
Lemma zip_loop_concat (zfile : ZipArchive) (text_of : string -> string)
  (names : list string) :
  (forall name, In name names ->
     exists file, zip_open zfile name = Ok file
       /\ (supported_entry name = true ->
           member_text name file = Ok (text_of name))) ->
  forall text,
    rfor_each names text (zip_entry zfile)
    = Ok (text ++ Py.join (map text_of (filter supported_entry names))).
Proof.
  induction names as [|name names IH]; intros Hall text.
  - simpl. now rewrite append_empty_r.
  - cbn [rfor_each filter].
    destruct (Hall name (or_introl eq_refl)) as (file & Hopen & Htext).
    rewrite zip_entry_member_text, Hopen. cbn [rbind].
    destruct (supported_entry name) eqn:Hs.
    + rewrite (Htext eq_refl). cbn [rbind map].
      rewrite IH by (intros n Hn; apply Hall; now right).
      now rewrite join_cons, append_assoc.
    + rewrite (member_text_unsupported _ _ Hs). cbn [rbind].
      rewrite append_empty_r.
      apply IH. intros n Hn. apply Hall. now right.
Qed.

(** X23: extraction follows the listing.  When the archive opens, every
    listed name can be opened and the member opened for every supported name
    yields its text, the result is the concatenation, in the order of
    [namelist()], of the texts of the members that [zfile.open] returns for
    the supported names; the other names contribute nothing. *)
Theorem zip_extraction_order_preserving (content : bytes)
  (zfile : ZipArchive) (text_of : string -> string) :
  ZipFile content = Ok zfile ->
  (forall name, In name (namelist zfile) ->
     exists file, zip_open zfile name = Ok file
       /\ (supported_entry name = true ->
           member_text name file = Ok (text_of name))) ->
  get_text_from_zip content
  = Ok (Py.join (map text_of (filter supported_entry (namelist zfile)))).
Proof.
  intros Hzip Hall. unfold get_text_from_zip. rewrite Hzip. cbn [rbind].
  now rewrite (zip_loop_concat zfile text_of (namelist zfile) Hall "").
Qed.

(** A name cannot end with two suffixes whose last characters differ. *)
Ltac other_ending Hends Hlast :=
  apply endswith_last_char in Hends; [|discriminate];
  rewrite Hlast in Hends; discriminate.

Lemma endswith_zip_unsupported (file_name : string) :
  Py.endswith file_name ".zip" = true -> supported_entry file_name = false.
Proof.
  intros Hz.
  assert (Hl : last_char file_name = Some "p"%char).
  { now rewrite (endswith_last_char _ ".zip") by (discriminate || exact Hz). }
  unfold supported_entry.
  destruct (Py.endswith file_name ".txt") eqn:Ht; [other_ending Ht Hl|].
  destruct (Py.endswith file_name ".pdf") eqn:Hp; [other_ending Hp Hl|].
  destruct (Py.endswith file_name ".xhtml") eqn:Hx; [other_ending Hx Hl|].
  reflexivity.
Qed.

(** C9, amended: the archive extractor dispatches every contained entry by
    the suffix of its name to the text, pdf or markup extractor and never
    invokes itself: an entry that is itself an archive is opened and skipped,
    so it leaves the accumulated text as it was. *)
Theorem zip_entry_archive_skipped (zfile : ZipArchive)
  (text file_name : string) (file : ZipMember) :
  Py.endswith file_name ".zip" = true ->
  zip_open zfile file_name = Ok file ->
  zip_entry_tag file_name = unknown
  /\ zip_entry zfile text file_name = Ok text.
Proof.
  intros Hz Hopen.
  pose proof (endswith_zip_unsupported _ Hz) as Hs.
  split.
  - unfold supported_entry in Hs. unfold zip_entry_tag.
    apply orb_false_iff in Hs as [Hs Hx].
    apply orb_false_iff in Hs as [Ht Hp].
    now rewrite Ht, Hp, Hx.
  - rewrite zip_entry_member_text, Hopen. cbn [rbind].
    rewrite (member_text_unsupported _ _ Hs). cbn [rbind].
    now rewrite append_empty_r.
Qed.

(** C8, amended: the extractor of an archive entry is chosen from the
    entry's name alone, by its suffix, whatever the tag of the archive that
    holds it.  For a name without a comma, an entry extracted as pdf or as
    markup has the same tag under the derivation used for top-level
    attachments. *)
Theorem zip_entry_tag_of_name (file_name : string) :
  contains "," file_name = false ->
  (forall zfile text,
     zip_entry zfile text file_name
     = (file <-? zip_open zfile file_name ;;
        s <-? member_text file_name file ;;
        Ok (text ++ s)))
  /\ (zip_entry_tag file_name = pdf -> resolve file_name = pdf)
  /\ (zip_entry_tag file_name = markup -> resolve file_name = markup).
Proof.
  intros Hcomma. split; [|split].
  - intros zfile text. apply zip_entry_member_text.
  - unfold zip_entry_tag.
    destruct (Py.endswith file_name ".txt"); [discriminate|].
    destruct (Py.endswith file_name ".pdf") eqn:Hp.
    + intros _. unfold resolve.
      now rewrite (attachment_type_of_suffix file_name "pdf").
    + destruct (Py.endswith file_name ".xhtml"); discriminate.
  - unfold zip_entry_tag.
    destruct (Py.endswith file_name ".txt"); [discriminate|].
    destruct (Py.endswith file_name ".pdf"); [discriminate|].
    destruct (Py.endswith file_name ".xhtml") eqn:Hx; [|discriminate].
    intros _. unfold resolve.
    now rewrite (attachment_type_of_suffix file_name "xhtml").
Qed.

End Archives.

(** X23 on the archive [a.txt, b.pdf, c.xades]: the text of [a.txt]
    followed by the text of [b.pdf]. *)
Lemma zip_extraction_order_preserving_abc :
  @get_text_from_zip (site_libraries zip_site) abc_zip
  = Ok ("alpha" ++ "beta gamma").
Proof.
  pose (text_of := fun name : string =>
                     if String.eqb name "a.txt" then "alpha"
                     else "beta gamma").
  refine (@zip_extraction_order_preserving (site_libraries zip_site)
            abc_zip abc_archive text_of eq_refl _).
  intros name [<-|[<-|[<-|[]]]]; eexists; (split; [reflexivity|]);
    vm_compute; try reflexivity; discriminate.
Defined.

(** C7: on the archive listed as [a.txt, b.txt, a.txt] the three entries
    hold "first ", "mid " and "last ", in that order, and the extracted text
    is "last mid last ": the loop opens every entry by its name, which gives
    the last entry of that name, so the text of the first [a.txt] is lost
    and that of the last one comes twice. *)
Theorem duplicate_names_extract_last_entry :
  namelist twins_archive = ["a.txt"; "b.txt"; "a.txt"]
  /\ map (fun entry =>
            data <-? read entry ;;
            @decode_utf8 (site_libraries twins_site) data)
         twins_archive
     = [Ok "first "; Ok "mid "; Ok "last "]
  /\ @get_text_from_zip (site_libraries twins_site) twins_zip
     = Ok "last mid last "
  /\ @get_text_from_zip (site_libraries twins_site) twins_zip
     <> Ok ("first " ++ "mid " ++ "last ").
Proof. vm_compute. repeat split. discriminate. Qed.

(** C9, as stated, fails: [a.txt] inside [inner.zip] yields "hello", yet the
    archive that holds [inner.zip] yields the empty text. *)
Lemma nested_archive_contributes_nothing :
  @get_text_from_zip (site_libraries zip_site) inner_zip = Ok "hello"
  /\ @get_text_from_zip (site_libraries zip_site) outer_zip = Ok ""
  /\ @get_text_from_zip (site_libraries zip_site) outer_zip <> Ok "hello".
Proof. vm_compute. repeat split. discriminate. Qed.

(** C9, amended, on [inner.zip]: the loop leaves the text gathered so far
    untouched. *)
Lemma zip_entry_archive_skipped_inner :
  zip_entry_tag "inner.zip" = unknown
  /\ @zip_entry (site_libraries zip_site) outer_archive "so far" "inner.zip"
     = Ok "so far".
Proof.
  apply (@zip_entry_archive_skipped (site_libraries zip_site) outer_archive
           "so far" "inner.zip" (member "inner.zip" inner_zip));
    reflexivity.
Defined.

(** C8, as stated, fails: the string [report.pdf,v2] is pdf as a top-level
    destination and is skipped as the name of an archive entry. *)
Lemma entry_and_href_tags_differ :
  resolve "report.pdf,v2" = pdf
  /\ zip_entry_tag "report.pdf,v2" = unknown
  /\ resolve "report.pdf,v2" <> zip_entry_tag "report.pdf,v2".
Proof. vm_compute. repeat split. discriminate. Qed.

(** C8, amended, on the entry name [b.pdf]. *)
Lemma zip_entry_tag_of_name_b_pdf :
  (forall zfile text,
     @zip_entry (site_libraries zip_site) zfile text "b.pdf"
     = (file <-? zip_open zfile "b.pdf" ;;
        s <-? @member_text (site_libraries zip_site) "b.pdf" file ;;
        Ok (text ++ s)))
  /\ (zip_entry_tag "b.pdf" = pdf -> resolve "b.pdf" = pdf)
  /\ (zip_entry_tag "b.pdf" = markup -> resolve "b.pdf" = markup).
Proof.
  apply (@zip_entry_tag_of_name (site_libraries zip_site) "b.pdf").
  reflexivity.
Defined.

(** ** Requests *)

Lemma outcome_bind {A B} (m : M A) (f : A -> M B) :
  outcome (bind m f)
  = match outcome m with
    | Ok a => outcome (f a)
    | Raise e => Raise e
    end.
Proof.
  destruct m as [[a|e] log]; simpl; [|reflexivity].
  now destruct (f a).
Qed.

Lemma requested_bind {A B} (m : M A) (f : A -> M B) :
  requested (bind m f)
  = (requested m ++ match outcome m with
                    | Ok a => requested (f a)
                    | Raise _ => []
                    end)%list.
Proof.
  destruct m as [[a|e] log]; simpl.
  - now destruct (f a).
  - now rewrite app_nil_r.
Qed.

Lemma M_eq {A} (m : M A) : m = (outcome m, requested m).
Proof. now destruct m. Qed.

(** ** The attachment table *)






(** ** Fetching the attachments *)

Section Attachments.
Context `{Libraries}.

(** Follow the [if]/[elif] chain of [get_text_from_attachment]. *)
Ltac by_attachment_type url :=
  destruct (String.eqb (attachment_type_of url) "pdf"); [reflexivity|];
  destruct (String.eqb (attachment_type_of url) "xhtml"); [reflexivity|];
  destruct (String.eqb (attachment_type_of url) "zip"); reflexivity.

(** An attachment is requested once, at the URL given, before its type is
    looked at. *)
Lemma get_text_from_attachment_requested (url : string) :
  requested (get_text_from_attachment url) = [url].
Proof.
  unfold get_text_from_attachment. rewrite requested_bind.
  unfold fetch at 1. cbn [requested snd].
  destruct (outcome (fetch url)) as [response|e]; [|reflexivity].
  by_attachment_type url.
Qed.

(** The extractor applied to a fetched attachment follows its tag; an
    unknown tag yields the empty text. *)
Lemma get_text_from_attachment_dispatch (url : string) :
  outcome (get_text_from_attachment url)
  = (response <-? outcome (fetch url) ;;
     match resolve url with
     | pdf => get_text_from_pdf (content response)
     | markup => get_text_from_xhtml (content response)
     | archive => get_text_from_zip (content response)
     | _ => Ok ""
     end).
Proof.
  unfold get_text_from_attachment. rewrite outcome_bind.
  destruct (outcome (fetch url)) as [response|e]; [|reflexivity].
  cbn [rbind]. unfold resolve, dispatch_tag.
  by_attachment_type url.
Qed.

Lemma scrape_attachment_xades (url texts : string) (link : element)
  (href : string) :
  get link "href" = Some href -> not_xades href = false ->
  scrape_attachment url texts link = ret texts.
Proof.
  unfold scrape_attachment, not_xades. intros -> Hx.
  now rewrite Hx.
Qed.

Lemma scrape_attachment_fetched (url texts : string) (link : element)
  (href : string) :
  get link "href" = Some href -> not_xades href = true ->
  scrape_attachment url texts link
  = (t <- get_text_from_attachment (attachment_url url href) ;;
     ret (texts ++ t)).
Proof.
  unfold scrape_attachment, not_xades. intros -> Hx.
  now rewrite Hx.
Qed.

Lemma scrape_attachment_requested (url texts : string) (link : element)
  (href : string) :
  get link "href" = Some href -> not_xades href = true ->
  requested (scrape_attachment url texts link) = [attachment_url url href].
Proof.
  intros Hget Hx.
  rewrite (scrape_attachment_fetched _ _ _ _ Hget Hx), requested_bind.
  rewrite get_text_from_attachment_requested.
  now destruct (outcome _).
Qed.

(** C4: the URL an attachment is fetched from.  For every hyperlink with a
    destination: when the destination begins with [attachment], the URL is
    the fixed external base URL followed by the raw destination; otherwise it
    is the relative-URL join of the destination against the URL of the detail
    page.  A hyperlink that is fetched is requested at exactly that URL. *)
Theorem attachment_fetch_url (url texts : string) (link : element)
  (href : string) :
  get link "href" = Some href ->
  (Py.startswith href "attachment" = true ->
   attachment_url url href
   = "https://infostrefa.com/espi/pl/reports/view/" ++ href)
  /\ (Py.startswith href "attachment" = false ->
      attachment_url url href = urljoin url (Some href))
  /\ (not_xades href = true ->
      requested (scrape_attachment url texts link)
      = [attachment_url url href]).
Proof.
  intros Hget. unfold attachment_url at 1 2, base_attachment_url.
  split; [|split].
  - now intros ->.
  - now intros ->.
  - now apply scrape_attachment_requested.
Qed.

(** The requests of the loop over the links: one per link that is not a
    signature, in link order, up to the first failure. *)
Lemma attachment_loop_requested (url : string) (links : list element) :
  forall texts,
  exists rest,
    (map (attachment_url url) (filter not_xades (hrefs links))
     = requested (for_each links texts (scrape_attachment url)) ++ rest)%list
    /\ (forall r,
          outcome (for_each links texts (scrape_attachment url)) = Ok r ->
          rest = []).
Proof.
  induction links as [|link links IH]; intros texts.
  - exists []. split; [reflexivity|]. reflexivity.
  - cbn [for_each]. rewrite requested_bind, outcome_bind.
    unfold hrefs. cbn [flat_map]. fold (hrefs links).
    destruct (get link "href") as [href|] eqn:Hget.
    + destruct (not_xades href) eqn:Hx.
      * rewrite (scrape_attachment_requested _ _ _ _ Hget Hx).
        cbn [app filter]. rewrite Hx. cbn [map].
        destruct (outcome (scrape_attachment url texts link)) as [texts'|e].
        -- destruct (IH texts') as (rest & Heq & Hok).
           exists rest. split; [now rewrite Heq|exact Hok].
        -- eexists. split; [reflexivity|]. discriminate.
      * rewrite (scrape_attachment_xades _ _ _ _ Hget Hx).
        cbn [app filter ret outcome requested fst snd]. rewrite Hx.
        apply IH.
    + unfold scrape_attachment. rewrite Hget.
      cbn [lift outcome requested fst snd app].
      eexists. split; [reflexivity|]. discriminate.
Qed.

(** C6, amended: a hyperlink of the attachment table whose derived type is
    xades is dropped and never fetched.  A hyperlink of any other type,
    supported or not, is requested at its resolved URL when the loop reaches
    it: the requests of the loop are those of the links that are not
    signatures, in link order, up to the first exception.  A fetched
    attachment whose type is none of pdf, xhtml and zip, and is not txt,
    contributes no text. *)
Theorem only_signatures_unfetched (url : string) (links : list element)
  (texts : string) :
  (forall link href acc,
     get link "href" = Some href ->
     (not_xades href = false -> scrape_attachment url acc link = ret acc)
     /\ (not_xades href = true ->
         requested (scrape_attachment url acc link)
         = [attachment_url url href]))
  /\ (forall u,
        In u (requested (for_each links texts (scrape_attachment url))) ->
        exists href,
          In href (hrefs links) /\ not_xades href = true
          /\ u = attachment_url url href)
  /\ (exists rest,
        map (attachment_url url) (filter not_xades (hrefs links))
        = (requested (for_each links texts (scrape_attachment url))
           ++ rest)%list
        /\ (forall r,
              outcome (for_each links texts (scrape_attachment url)) = Ok r ->
              rest = []))
  /\ (forall link href response,
        get link "href" = Some href -> not_xades href = true ->
        resolve (attachment_url url href) = unknown ->
        attachment_type_of (attachment_url url href) <> "txt" ->
        outcome (fetch (attachment_url url href)) = Ok response ->
        scrape_attachment url texts link
        = (Ok texts, [attachment_url url href])).
Proof.
  destruct (attachment_loop_requested url links texts) as (rest & Heq & Hok).
  split; [|split; [|split]].
  - intros link href acc Hget. split; intros Hx.
    + now apply (scrape_attachment_xades _ _ _ href).
    + now apply scrape_attachment_requested.
  - intros u Hin.
    assert (Hin' : In u (map (attachment_url url)
                             (filter not_xades (hrefs links)))).
    { rewrite Heq. apply in_or_app. now left. }
    apply in_map_iff in Hin' as (href & <- & Hin').
    apply filter_In in Hin' as [Hin' Hx].
    now exists href.
  - now exists rest.
  - intros link href response Hget Hx Hunknown _ Hfetch.
    rewrite (M_eq (scrape_attachment url texts link)).
    rewrite (scrape_attachment_requested _ _ _ _ Hget Hx).
    rewrite (scrape_attachment_fetched _ _ _ _ Hget Hx), outcome_bind.
    rewrite get_text_from_attachment_dispatch, Hfetch, Hunknown.
    cbn [rbind ret outcome fst]. now rewrite append_empty_r.
Qed.

(** The derived type of a URL under the external base is that of the
    destination appended to the base. *)
Lemma attachment_type_of_base (href : string) :
  attachment_type_of (base_attachment_url ++ href) = attachment_type_of href.
Proof.
  rewrite !attachment_type_of_spec. do 2 f_equal.
  change (base_attachment_url ++ href)
    with ("https://infostrefa.com/espi/pl/reports/view" ++ String "/" href).
  destruct (contains "/" href) eqn:Hslash.
  - change (String "/" href) with (String "/" "" ++ href).
    rewrite <- append_assoc.
    induction ("https://infostrefa.com/espi/pl/reports/view"
               ++ String "/" "") as [|c p IH]; [reflexivity|].
    cbn [append after_last].
    now rewrite contains_app, Hslash, orb_true_r.
  - rewrite (after_last_without _ _ Hslash). now apply after_last_sep.
Qed.

(** C2, amended: the type derivation is a pure function of its input
    string.  Of the last slash-separated segment it takes the substring up to
    (excluding) the first comma if one exists, then the substring after the
    last period, and compares it against the known extensions: pdf, xhtml
    and zip give the tags pdf, markup and archive, and anything else gives
    unknown, as does an input without a period that is not itself the name
    of an extension (txt is left aside).  The extractor of a fetched
    attachment follows the tag of the URL it was fetched from; for a
    destination that begins with [attachment] that is the tag of the raw
    destination, whatever the detail page.  So [report.pdf,v2] is pdf, and
    [report,v2.pdf] and [sig.xades] are unknown. *)
Theorem resolve_derivation :
  (forall name,
     contains "." (before_first "," (after_last "/" name)) = true ->
     attachment_type_of name
     = after_last "." (before_first "," (after_last "/" name)))
  /\ (forall name,
        (attachment_type_of name = "pdf" -> resolve name = pdf)
        /\ (attachment_type_of name = "xhtml" -> resolve name = markup)
        /\ (attachment_type_of name = "zip" -> resolve name = archive)
        /\ (attachment_type_of name <> "pdf" ->
            attachment_type_of name <> "xhtml" ->
            attachment_type_of name <> "zip" ->
            attachment_type_of name <> "txt" ->
            resolve name = unknown))
  /\ (forall name,
        contains "." (before_first "," (after_last "/" name)) = false ->
        before_first "," (after_last "/" name) <> "pdf" ->
        before_first "," (after_last "/" name) <> "xhtml" ->
        before_first "," (after_last "/" name) <> "zip" ->
        before_first "," (after_last "/" name) <> "txt" ->
        resolve name = unknown)
  /\ (forall url response,
        outcome (fetch url) = Ok response ->
        (resolve url = pdf ->
         outcome (get_text_from_attachment url)
         = get_text_from_pdf (content response))
        /\ (resolve url = markup ->
            outcome (get_text_from_attachment url)
            = get_text_from_xhtml (content response))
        /\ (resolve url = archive ->
            outcome (get_text_from_attachment url)
            = get_text_from_zip (content response)))
  /\ (forall url href,
        Py.startswith href "attachment" = true ->
        resolve (attachment_url url href) = resolve href)
  /\ resolve "report.pdf,v2" = pdf
  /\ resolve "report,v2.pdf" = unknown
  /\ resolve "sig.xades" = unknown.
Proof.
  assert (Htags : forall name,
            attachment_type_of name <> "pdf" ->
            attachment_type_of name <> "xhtml" ->
            attachment_type_of name <> "zip" ->
            resolve name = unknown).
  { intros name Hpdf Hxhtml Hzip. unfold resolve, dispatch_tag.
    apply String.eqb_neq in Hpdf, Hxhtml, Hzip.
    now rewrite Hpdf, Hxhtml, Hzip. }
  split; [|split; [|split; [|split; [|split]]]].
  - intros name _. apply attachment_type_of_spec.
  - intros name. unfold resolve. repeat split.
    + now intros ->.
    + now intros ->.
    + now intros ->.
    + intros Hpdf Hxhtml Hzip _. now apply Htags.
  - intros name Hperiod Hpdf Hxhtml Hzip _.
    apply Htags; rewrite attachment_type_of_spec,
                   (after_last_without _ _ Hperiod); assumption.
  - intros url response Hfetch.
    rewrite get_text_from_attachment_dispatch, Hfetch. cbn [rbind].
    repeat split; now intros ->.
  - intros url href Hprefix. unfold resolve, attachment_url.
    now rewrite Hprefix, attachment_type_of_base.
  - repeat split; reflexivity.
Qed.

End Attachments.

(** C4 on the two destinations of the third page: [attachment/one.pdf] is
    requested at the external base, [/docs/two.xhtml] at its join with the
    URL of the page. *)
Lemma attachment_fetch_url_examples :
  @requested string
    (@scrape_attachment (site_libraries three_site) three_url ""
       (Element (a_href "attachment/one.pdf" "one") []))
  = ["https://infostrefa.com/espi/pl/reports/view/attachment/one.pdf"]
  /\ @requested string
       (@scrape_attachment (site_libraries three_site) three_url ""
          (Element (a_href "/docs/two.xhtml" "two") []))
     = [@urljoin (site_libraries three_site) three_url
          (Some "/docs/two.xhtml")].
Proof.
  pose proof (@attachment_fetch_url (site_libraries three_site) three_url ""
                (Element (a_href "attachment/one.pdf" "one") [])
                "attachment/one.pdf" eq_refl) as (Hbase & _ & Hreq).
  pose proof (@attachment_fetch_url (site_libraries three_site) three_url ""
                (Element (a_href "/docs/two.xhtml" "two") [])
                "/docs/two.xhtml" eq_refl) as (_ & Hjoin & Hreq').
  split.
  - rewrite (Hreq eq_refl), (Hbase eq_refl). reflexivity.
  - rewrite (Hreq' eq_refl), (Hjoin eq_refl). reflexivity.
Defined.

(** C6, as stated, fails: [notes.doc] has an unknown tag and is requested
    all the same; only [sig.xades] is left alone. *)
Lemma unknown_type_is_fetched :
  resolve "notes.doc" = unknown
  /\ resolve "https://www.gpw.pl/notes.doc" = unknown
  /\ In "https://www.gpw.pl/notes.doc"
        (requested (@scrape_text_from_url (site_libraries doc_site) doc_url)).
Proof. vm_compute. repeat split. right. now left. Qed.

(** C6, amended, on the page that lists [notes.doc] and [sig.xades]: the
    loop requests the Word file and nothing else, and the signature leaves
    the text as it was. *)
Lemma only_signatures_unfetched_doc :
  requested (for_each (attachment_links doc_page) ""
               (@scrape_attachment (site_libraries doc_site) doc_url))
  = ["https://www.gpw.pl/notes.doc"]
  /\ @scrape_attachment (site_libraries doc_site) doc_url "so far"
       (Element (a_href "sig.xades" "") [])
     = ret "so far".
Proof.
  pose proof (@only_signatures_unfetched (site_libraries doc_site)
                doc_url (attachment_links doc_page) "")
    as (Hlink & _ & (rest & Hall & Hok) & _).
  split.
  - rewrite (Hok "" eq_refl), app_nil_r in Hall.
    rewrite <- Hall. reflexivity.
  - apply (Hlink (Element (a_href "sig.xades" "") []) "sig.xades" "so far"
             eq_refl).
    reflexivity.
Defined.

(** C2, as stated, fails on four counts.  The specification's example
    [report,v2.pdf] is not given the tag pdf: what precedes its first comma
    is [report].  An input without a period is not always unknown: a bare
    [pdf] is compared whole.  The derivation starts from the last
    slash-separated segment: [files,2024/report.pdf] has type pdf, while the
    text after the last period of what precedes its first comma is
    [files].  And the same raw destination does not always select the same
    extractor: the tag is taken on the resolved URL, and an empty destination
    resolves to the URL of the detail page. *)
Lemma resolve_differs_from_claim :
  resolve "report,v2.pdf" <> pdf
  /\ resolve "pdf" <> unknown
  /\ (attachment_type_of "files,2024/report.pdf" = "pdf"
      /\ after_last "." (before_first "," "files,2024/report.pdf") <> "pdf")
  /\ resolve (@attachment_url (site_libraries q1_site)
                "https://www.gpw.pl/komunikat?geru_id=1&file=raport.pdf" "")
     <> resolve (@attachment_url (site_libraries q1_site)
                   "https://www.gpw.pl/komunikat?geru_id=2&file=raport.zip"
                   "").
Proof. vm_compute. repeat split; discriminate. Qed.

(** C2, amended, on the PDF of the report with three attachments. *)
Lemma resolve_derivation_full :
  attachment_type_of "attachment/one.pdf" = "pdf"
  /\ resolve "attachment/one.pdf" = pdf
  /\ resolve "notes" = unknown
  /\ outcome (@get_text_from_attachment (site_libraries full_site)
                "https://infostrefa.com/espi/pl/reports/view/attachment/one.pdf")
     = @get_text_from_pdf (site_libraries full_site) "%PDF one"
  /\ resolve (@attachment_url (site_libraries full_site) full_url
                "attachment/one.pdf")
     = resolve "attachment/one.pdf".
Proof.
  pose proof (@resolve_derivation (site_libraries full_site))
    as (Htype & Htag & Hplain & Hextractor & Hbase & _).
  refine (conj _ (conj _ (conj _ (conj _ _)))).
  - apply Htype. reflexivity.
  - apply (Htag "attachment/one.pdf"). reflexivity.
  - apply Hplain; [reflexivity|discriminate..].
  - apply (Hextractor _ (ok_response "%PDF one")); reflexivity.
  - apply Hbase. reflexivity.
Defined.

(** ** The dictionary of results *)

Lemma keys_dict_set (d : list (string * string)) (k v : string) :
  map fst (dict_set d k v) = add_key (map fst d) k.
Proof.
  unfold add_key, mem. induction d as [|[k' v'] d IH]; [reflexivity|].
  cbn [dict_set map fst existsb].
  rewrite (String.eqb_sym k k').
  destruct (String.eqb k' k); cbn [map fst orb]; [reflexivity|].
  rewrite IH. now destruct (existsb (String.eqb k) (map fst d)).
Qed.

Lemma in_dict_set (d : list (string * string)) (k v : string)
  (kv : string * string) :
  In kv (dict_set d k v) -> In kv d \/ kv = (k, v).
Proof.
  induction d as [|[k' v'] d IH]; cbn [dict_set].
  - intros [<-|[]]. now right.
  - destruct (String.eqb k' k) eqn:E.
    + apply String.eqb_eq in E. subst k'.
      intros [<-|Hin]; [now right|left; now right].
    + intros [<-|Hin]; [left; now left|].
      destruct (IH Hin); [left; now right|now right].
Qed.

Lemma filter_filter_comm {A} (p q : A -> bool) (l : list A) :
  filter p (filter q l) = filter q (filter p l).
Proof.
  induction l as [|x l IH]; [reflexivity|]. cbn [filter].
  destruct (p x) eqn:Hp, (q x) eqn:Hq; cbn [filter];
    rewrite ?Hp, ?Hq, IH; reflexivity.
Qed.

Lemma filter_filter_absorb {A} (p q : A -> bool) (l : list A) :
  (forall y, q y = false -> p y = false) ->
  filter p (filter q l) = filter p l.
Proof.
  intros Hpq. induction l as [|x l IH]; [reflexivity|]. cbn [filter].
  destruct (q x) eqn:Hq; cbn [filter]; rewrite IH; [reflexivity|].
  now rewrite (Hpq x Hq).
Qed.

Lemma first_occurrences_filter (p : string -> bool) (l : list string) :
  filter p (first_occurrences l) = first_occurrences (filter p l).
Proof.
  induction l as [|x l IH]; [reflexivity|].
  cbn [first_occurrences filter].
  destruct (p x) eqn:Hp; cbn [first_occurrences filter].
  - now rewrite filter_filter_comm, IH.
  - rewrite <- IH. apply filter_filter_absorb.
    intros y Hy. apply negb_false_iff, String.eqb_eq in Hy. now subst.
Qed.

Lemma mem_app_one (y x : string) (acc : list string) :
  mem y (acc ++ [x]) = mem y acc || String.eqb y x.
Proof.
  unfold mem. rewrite existsb_app. simpl. now rewrite orb_false_r.
Qed.

Lemma filter_filter_and {A} (p q : A -> bool) (l : list A) :
  filter p (filter q l) = filter (fun y => q y && p y) l.
Proof.
  induction l as [|x l IH]; [reflexivity|]. cbn [filter].
  destruct (q x); cbn [filter andb]; now rewrite IH.
Qed.

(** Adding the keys one by one lists them by first occurrence. *)
Lemma fold_add_key (l acc : list string) :
  fold_left add_key l acc
  = (acc ++ first_occurrences (filter (fun y => negb (mem y acc)) l))%list.
Proof.
  revert acc. induction l as [|x l IH]; intros acc.
  - simpl. now rewrite app_nil_r.
  - cbn [fold_left filter]. unfold add_key at 2.
    destruct (mem x acc) eqn:Hx; cbn [negb].
    + apply IH.
    + rewrite IH, <- app_assoc. cbn [app first_occurrences].
      do 2 f_equal.
      rewrite first_occurrences_filter, filter_filter_and.
      f_equal. apply filter_ext.
      intros y. now rewrite mem_app_one, negb_orb.
Qed.

Lemma filter_all {A} (p : A -> bool) (l : list A) :
  (forall y, In y l -> p y = true) -> filter p l = l.
Proof.
  induction l as [|x l IH]; intros Hall; [reflexivity|]. cbn [filter].
  rewrite (Hall x (or_introl eq_refl)), IH; [reflexivity|].
  intros y Hy. apply Hall. now right.
Qed.

(** A list without repetition is its own list of first occurrences. *)
Lemma first_occurrences_NoDup (l : list string) :
  NoDup l -> first_occurrences l = l.
Proof.
  induction 1 as [|x l Hx Hl IH]; [reflexivity|].
  cbn [first_occurrences]. rewrite IH. f_equal.
  apply filter_all. intros y Hy.
  apply negb_true_iff, String.eqb_neq. intros ->. contradiction.
Qed.

(** ** The corpus *)

Section Corpus.
Context `{Libraries}.

(** The loop of [scrape_text_from_urls]: the keys of the dictionary and the
    text stored under each. *)
Lemma scrape_loop (urls : list string) :
  forall d0 d,
    outcome (for_each urls d0
               (fun results url =>
                  t <- scrape_text_from_url url ;;
                  ret (dict_set results url t))) = Ok d ->
    map fst d = fold_left add_key urls (map fst d0)
    /\ (forall kv, In kv d ->
          In kv d0
          \/ outcome (scrape_text_from_url (fst kv)) = Ok (snd kv)).
Proof.
  induction urls as [|u urls IH]; intros d0 d.
  - cbn. intros [= <-]. split; [reflexivity|]. intros kv Hkv. now left.
  - cbn [for_each fold_left]. rewrite outcome_bind, outcome_bind.
    destruct (outcome (scrape_text_from_url u)) as [t|e] eqn:Hu;
      [|discriminate].
    cbn [ret outcome fst]. intros Hd.
    destruct (IH _ _ Hd) as [Hkeys Hvals].
    split.
    + now rewrite Hkeys, keys_dict_set.
    + intros kv Hkv. destruct (Hvals kv Hkv) as [Hin|Hok]; [|now right].
      destruct (in_dict_set _ _ _ _ Hin) as [Hin0| ->]; [now left|].
      right. exact Hu.
Qed.

(** C10, amended: the corpus holds one record per distinct detail URL of the
    listing, in the order in which the URLs first occur, each with the text
    scraped at its URL.  When no URL is listed twice this is one record per
    listing entry, in listing order. *)
Theorem corpus_one_record_per_url (date : string) (data : list OutputRecord) :
  outcome (main date) = Ok data ->
  exists df,
    outcome (scrape_articles date) = Ok df
    /\ map rec_url data = first_occurrences (map URL (rows df))
    /\ (forall r, In r data ->
          outcome (scrape_text_from_url (rec_url r)) = Ok (rec_content r))
    /\ (NoDup (map URL (rows df)) ->
        map rec_url data = map URL (rows df)
        /\ List.length data = List.length (rows df)).
Proof.
  unfold main. rewrite outcome_bind.
  destruct (outcome (scrape_articles date)) as [df|e]; [|discriminate].
  rewrite outcome_bind.
  destruct (outcome (scrape_text_from_urls df)) as [d|e] eqn:Hd;
    [|discriminate].
  cbn [ret outcome fst]. intros [= <-].
  exists df. split; [reflexivity|].
  unfold scrape_text_from_urls in Hd. rewrite outcome_bind in Hd.
  unfold df_URL in Hd.
  destruct (mem "URL" (columns df)); [|discriminate].
  cbn [lift outcome fst] in Hd.
  destruct (scrape_loop _ _ _ Hd) as [Hkeys Hvals].
  assert (Hurls : map rec_url (map (fun item => mkRecord (fst item) (snd item)) d)
                  = first_occurrences (map URL (rows df))).
  { rewrite map_map, (map_ext _ fst) by reflexivity.
    rewrite Hkeys, fold_add_key.
    cbn [map app]. f_equal. now apply filter_all. }
  split; [exact Hurls|]. split.
  - intros r Hr. apply in_map_iff in Hr as (kv & <- & Hkv).
    cbn [rec_url rec_content].
    destruct (Hvals kv Hkv) as [[]|Hok]. exact Hok.
  - intros Hnodup. rewrite (first_occurrences_NoDup _ Hnodup) in Hurls.
    split; [exact Hurls|].
    rewrite <- (length_map rec_url), Hurls. apply length_map.
Qed.

(** A listing without entries: the frame has no [URL] column and the
    script stops on [df['URL']]. *)
Lemma main_no_articles (date : string) (response : Response) :
  outcome (fetch (listing_url date)) = Ok response ->
  soup_select (BeautifulSoup (content response)) sel_articles = [] ->
  outcome (main date) = Raise (KeyError "URL").
Proof.
  intros Hfetch Hnone. unfold main. rewrite outcome_bind.
  unfold scrape_articles. rewrite outcome_bind, Hfetch, Hnone.
  cbn [map pd_DataFrame ret outcome fst].
  rewrite outcome_bind. reflexivity.
Qed.

(** A fetched attachment whose derived type is [txt] yields no text. *)
Lemma get_text_from_attachment_txt (url : string) (response : Response) :
  attachment_type_of url = "txt" ->
  outcome (fetch url) = Ok response ->
  outcome (get_text_from_attachment url) = Ok "".
Proof.
  intros Htxt Hfetch.
  rewrite get_text_from_attachment_dispatch, Hfetch.
  unfold resolve. now rewrite Htxt.
Qed.

End Corpus.

(** C10, as stated, fails: the listing carries the same detail URL twice,
    the page is scraped twice, and the corpus holds a single record. *)
Lemma duplicate_url_one_record :
  exists df data,
    outcome (@scrape_articles (site_libraries twice_site) may7) = Ok df
    /\ outcome (@main (site_libraries twice_site) may7) = Ok data
    /\ List.length (rows df) = 2
    /\ List.length data = 1.
Proof. do 2 eexists. vm_compute. repeat split. Qed.

(** C10, amended, on the listing that carries one URL twice. *)
Lemma corpus_one_record_per_url_twice :
  exists df,
    outcome (@scrape_articles (site_libraries twice_site) may7) = Ok df
    /\ map rec_url [mkRecord "https://www.gpw.pl/komunikat?geru_id=7"
                             "Plain text"]
       = first_occurrences (map URL (rows df))
    /\ (forall r,
          In r [mkRecord "https://www.gpw.pl/komunikat?geru_id=7"
                         "Plain text"] ->
          outcome (@scrape_text_from_url (site_libraries twice_site)
                     (rec_url r)) = Ok (rec_content r))
    /\ (NoDup (map URL (rows df)) ->
        map rec_url [mkRecord "https://www.gpw.pl/komunikat?geru_id=7"
                              "Plain text"] = map URL (rows df)
        /\ List.length [mkRecord "https://www.gpw.pl/komunikat?geru_id=7"
                                 "Plain text"] = List.length (rows df)).
Proof.
  apply (@corpus_one_record_per_url (site_libraries twice_site) may7).
  reflexivity.
Defined.

(** C1: on the page that reads "Q1 results" and lists [report.txt], the
    attachment is requested, answers "Revenue up 5%", and is left out: the
    text of the document is "Q1 results" alone. *)
Theorem text_attachment_left_out :
  @scrape_text_from_url (site_libraries q1_site) q1_url
  = (Ok "Q1 results", [q1_url; "https://www.gpw.pl/report.txt"])
  /\ (r <-? @requests_get (site_libraries q1_site)
              "https://www.gpw.pl/report.txt" ;;
      @decode_utf8 (site_libraries q1_site) (content r))
     = Ok "Revenue up 5%"
  /\ outcome (@scrape_text_from_url (site_libraries q1_site) q1_url)
     <> Ok "Q1 resultsRevenue up 5%".
Proof. vm_compute. repeat split. discriminate. Qed.

(** C5: on a date whose listing has no entry the script raises
    [KeyError('URL')] after the listing request. *)
Theorem empty_listing_raises :
  @main (site_libraries empty_site) may7
  = (Raise (KeyError "URL"), [listing_url may7])
  /\ outcome (@scrape_articles (site_libraries empty_site) may7)
     = Ok (mkDataFrame [] []).
Proof. vm_compute. split; reflexivity. Qed.

(** * Further properties of the scraper *)

(** ** The derived type *)

Lemma contains_after_last_same (c : ascii) (s : string) :
  contains c (after_last c s) = false.
Proof.
  induction s as [|a s IH]; simpl; [reflexivity|].
  destruct (contains c s) eqn:Hs; [exact IH|].
  destruct (Ascii.eqb a c) eqn:Ha; [exact Hs|].
  simpl. now rewrite Ha, Hs.
Qed.

Lemma contains_before_first_same (c : ascii) (s : string) :
  contains c (before_first c s) = false.
Proof.
  induction s as [|a s IH]; simpl; [reflexivity|].
  destruct (Ascii.eqb a c) eqn:Ha; [reflexivity|].
  simpl. now rewrite Ha, IH.
Qed.

Lemma contains_before_first (c d : ascii) (s : string) :
  contains c s = false -> contains c (before_first d s) = false.
Proof.
  induction s as [|a s IH]; simpl; [reflexivity|].
  intros Hc. apply orb_false_iff in Hc as [Ha Hs].
  destruct (Ascii.eqb a d); [reflexivity|].
  simpl. now rewrite Ha, IH.
Qed.

(** What precedes a later [c] does not change what follows the last one. *)
Lemma after_last_skip (c : ascii) (p t : string) :
  contains c t = true -> after_last c (p ++ t) = after_last c t.
Proof.
  intros Ht. induction p as [|a p IH]; [reflexivity|].
  cbn [append after_last]. now rewrite contains_app, Ht, orb_true_r.
Qed.

Lemma after_last_behind_sep (c : ascii) (p t : string) :
  after_last c (p ++ String c t) = after_last c t.
Proof.
  destruct (contains c t) eqn:Ht.
  - change (String c t) with (String c "" ++ t).
    rewrite <- append_assoc. now apply after_last_skip.
  - rewrite (after_last_without c t Ht). now apply after_last_sep.
Qed.

Lemma before_first_sep (c : ascii) (s t : string) :
  before_first c (s ++ String c t) = before_first c s.
Proof.
  induction s as [|a s IH]; simpl.
  - now rewrite Ascii.eqb_refl.
  - destruct (Ascii.eqb a c); [reflexivity|]. now rewrite IH.
Qed.

(** X1: the derived type of an attachment never holds a period, a comma or
    a slash. *)
Theorem attachment_type_of_plain (url : string) :
  contains "." (attachment_type_of url) = false
  /\ contains "," (attachment_type_of url) = false
  /\ contains "/" (attachment_type_of url) = false.
Proof.
  rewrite attachment_type_of_spec. repeat split.
  - apply contains_after_last_same.
  - apply contains_after_last, contains_before_first_same.
  - apply contains_after_last, contains_before_first,
      contains_after_last_same.
Qed.

(** X2: whatever follows a comma in the last path segment is ignored: a
    name and the name followed by a comma and a slash-free suffix have the
    same derived type. *)
Theorem attachment_type_of_comma_suffix (name rest : string) :
  contains "/" rest = false ->
  attachment_type_of (name ++ String "," rest) = attachment_type_of name.
Proof.
  intros Hrest. rewrite !attachment_type_of_spec.
  rewrite after_last_app by (simpl; exact Hrest).
  now rewrite before_first_sep.
Qed.

Lemma attachment_type_of_comma_suffix_report :
  attachment_type_of ("docs/report.pdf" ++ String "," "20240507")
  = attachment_type_of "docs/report.pdf".
Proof.
  apply (attachment_type_of_comma_suffix "docs/report.pdf" "20240507").
  reflexivity.
Defined.

Section ResolvedType.
Context `{Libraries}.

(** X3: a destination that begins with [attachment] keeps its derived type
    when it is resolved against the external base, so the signature gate
    (taken on the destination) and the choice of extractor (taken on the
    resolved URL) look at the same type. *)
Theorem attachment_url_keeps_type (url href : string) :
  Py.startswith href "attachment" = true ->
  attachment_type_of (attachment_url url href) = attachment_type_of href
  /\ resolve (attachment_url url href) = resolve href.
Proof.
  intros Hprefix. unfold resolve, attachment_url. rewrite Hprefix.
  assert (Htype : attachment_type_of (base_attachment_url ++ href)
                  = attachment_type_of href).
  { rewrite !attachment_type_of_spec. do 2 f_equal.
    change (base_attachment_url ++ href)
      with ("https://infostrefa.com/espi/pl/reports/view" ++ String "/" href).
    apply after_last_behind_sep. }
  now rewrite Htype.
Qed.

End ResolvedType.

Lemma attachment_url_keeps_type_one :
  attachment_type_of
    (@attachment_url (site_libraries three_site) three_url
       "attachment/one.pdf")
  = attachment_type_of "attachment/one.pdf"
  /\ resolve (@attachment_url (site_libraries three_site) three_url
                "attachment/one.pdf")
     = resolve "attachment/one.pdf".
Proof.
  apply (@attachment_url_keeps_type (site_libraries three_site)).
  reflexivity.
Defined.

(** ** Loops that stop at the first exception *)

Lemma for_each_abort {A S} (body : S -> A -> M S) (x : A) (after : list A)
  (e : exn) (log_x : list string) (before : list A) :
  forall acc acc' log,
    for_each before acc body = (Ok acc', log) ->
    body acc' x = (Raise e, log_x) ->
    for_each (before ++ x :: after) acc body = (Raise e, (log ++ log_x)%list).
Proof.
  induction before as [|y before IH]; intros acc acc' log Hbefore Hx.
  - cbn in Hbefore. injection Hbefore as <- <-.
    cbn [app for_each]. now rewrite Hx.
  - cbn [app for_each] in *.
    destruct (body acc y) as [[acc1|e1] log1]; cbn [bind] in *;
      [|discriminate].
    destruct (for_each before acc1 body) as [r2 log2] eqn:Hrest.
    injection Hbefore as -> <-.
    rewrite (IH acc1 acc' log2 Hrest Hx).
    now rewrite app_assoc.
Qed.

Lemma rfor_each_abort {A S} (body : S -> A -> result S) (x : A)
  (after : list A) (e : exn) (before : list A) :
  forall acc acc',
    rfor_each before acc body = Ok acc' ->
    body acc' x = Raise e ->
    rfor_each (before ++ x :: after) acc body = Raise e.
Proof.
  induction before as [|y before IH]; intros acc acc' Hbefore Hx.
  - cbn in Hbefore. injection Hbefore as <-.
    cbn [app rfor_each]. now rewrite Hx.
  - cbn [app rfor_each] in *.
    destruct (body acc y) as [acc1|e1]; cbn [rbind] in *; [|discriminate].
    now apply (IH acc1 acc').
Qed.

(** ** Extractors *)

Section Extractors.
Context `{Libraries}.

Lemma join_empty_cons (l : list string) : Py.join ("" :: l) = Py.join l.
Proof. now rewrite join_cons. Qed.

Lemma pdf_loop (pages : list (option string)) :
  forall pdf_text,
    fold_left
      (fun pdf_text page_text =>
         match page_text with
         | Some t => if String.eqb t "" then pdf_text else pdf_text ++ t
         | None => pdf_text
         end) pages pdf_text
    = pdf_text ++ Py.join (page_texts pages).
Proof.
  induction pages as [|[t|] pages IH]; intros pdf_text; cbn [fold_left].
  - now rewrite append_empty_r.
  - rewrite IH. unfold page_texts. cbn [flat_map app].
    fold (page_texts pages). rewrite join_cons.
    destruct (String.eqb t "") eqn:Ht.
    + apply String.eqb_eq in Ht. now subst.
    + now rewrite append_assoc.
  - now rewrite IH.
Qed.

(** X4: the text of a PDF is the concatenation, in page order, of the texts
    of its pages; a page whose [extract_text()] is [None] or empty adds
    nothing, and a document that cannot be opened raises. *)
Theorem get_text_from_pdf_pages (buffer : bytes) :
  get_text_from_pdf buffer
  = (pages <-? pdfplumber_pages buffer ;; Ok (Py.join (page_texts pages))).
Proof.
  unfold get_text_from_pdf.
  destruct (pdfplumber_pages buffer) as [pages|e]; [|reflexivity].
  cbn [rbind]. now rewrite pdf_loop.
Qed.

(** X5: one member that cannot be extracted loses the text of the whole
    archive: when the members listed before it are extracted and its own
    extraction raises, [get_text_from_zip] raises the same exception and
    returns nothing of what it had gathered. *)
Theorem get_text_from_zip_aborts (content : bytes) (zfile : ZipArchive)
  (before after : list string) (file_name text : string) (file : ZipMember)
  (e : exn) :
  ZipFile content = Ok zfile ->
  namelist zfile = (before ++ file_name :: after)%list ->
  rfor_each before "" (zip_entry zfile) = Ok text ->
  zip_open zfile file_name = Ok file ->
  member_text file_name file = Raise e ->
  get_text_from_zip content = Raise e.
Proof.
  intros Hzip Hnames Hbefore Hopen Htext.
  unfold get_text_from_zip. rewrite Hzip. cbn [rbind]. rewrite Hnames.
  apply (rfor_each_abort _ _ _ _ _ _ _ Hbefore).
  rewrite zip_entry_member_text, Hopen. cbn [rbind]. now rewrite Htext.
Qed.

End Extractors.

(** X5 on the archive [a.txt, b.txt, c.txt] whose second entry is not
    UTF-8. *)
Lemma get_text_from_zip_aborts_latin :
  @get_text_from_zip (site_libraries latin_site) latin_zip
  = Raise UnicodeDecodeError.
Proof.
  apply (@get_text_from_zip_aborts (site_libraries latin_site) latin_zip
           latin_archive ["a.txt"] ["c.txt"] "b.txt" "alpha"
           (member "b.txt"
              (String (ascii_of_nat 233) "t" ++ String (ascii_of_nat 233) ""))
           UnicodeDecodeError);
    reflexivity.
Defined.

(** ** One detail page *)

Section DetailPage.
Context `{Libraries}.

(** The run of [scrape_text_from_url] on a page that could be fetched: the
    page request, then the loop over the attachment links. *)
Lemma scrape_text_from_url_run (url : string) (response : Response) :
  outcome (fetch url) = Ok response ->
  scrape_text_from_url url
  = (match outcome (for_each (attachment_links
                                (BeautifulSoup (content response)))
                             "" (scrape_attachment url)) with
     | Ok texts =>
         Ok (main_text_of (BeautifulSoup (content response)) ++ texts)
     | Raise e => Raise e
     end,
     url :: requested (for_each (attachment_links
                                   (BeautifulSoup (content response)))
                                "" (scrape_attachment url))).
Proof.
  intros Hfetch. rewrite (M_eq (scrape_text_from_url url)).
  unfold scrape_text_from_url.
  rewrite outcome_bind, requested_bind, Hfetch.
  rewrite outcome_bind, requested_bind.
  unfold main_text_of. cbn [fetch requested snd app].
  destruct (outcome (for_each _ _ _)); cbn [ret outcome requested fst snd];
    now rewrite ?app_nil_r.
Qed.

Lemma attachment_links_few (page : soup) :
  List.length (found_tables page) < 2 -> attachment_links page = [].
Proof.
  intros Hlen. unfold attachment_links.
  destruct (Nat.leb_spec 2 (List.length (found_tables page)));
    [lia|reflexivity].
Qed.

(** The text gathered by the loop over the links, when every fetched
    attachment yields its text. *)
Lemma attachment_loop_outcome (url : string) (text_of : string -> string)
  (links : list element) :
  (forall link, In link links ->
     exists href,
       get link "href" = Some href
       /\ (not_xades href = true ->
           outcome (get_text_from_attachment (attachment_url url href))
           = Ok (text_of href))) ->
  forall texts,
    outcome (for_each links texts (scrape_attachment url))
    = Ok (texts
          ++ Py.join (map text_of (filter not_xades (hrefs links)))).
Proof.
  induction links as [|link links IH]; intros Hall texts.
  - cbn. now rewrite append_empty_r.
  - cbn [for_each]. rewrite outcome_bind.
    destruct (Hall link (or_introl eq_refl)) as (href & Hget & Htext).
    unfold hrefs. cbn [flat_map]. fold (hrefs links). rewrite Hget.
    cbn [app filter].
    destruct (not_xades href) eqn:Hx.
    + rewrite (scrape_attachment_fetched _ _ _ _ Hget Hx), outcome_bind.
      rewrite (Htext eq_refl). cbn [ret outcome fst map].
      rewrite IH by (intros l Hl; apply Hall; now right).
      now rewrite join_cons, append_assoc.
    + rewrite (scrape_attachment_xades _ _ _ _ Hget Hx).
      cbn [ret outcome fst].
      apply IH. intros l Hl. apply Hall. now right.
Qed.

(** X6: the text of a document is the main text of its page followed by the
    texts of its attachments in link order, signatures left out, and the
    requests are the page followed by those attachments in the same order.
    This holds when the page is fetched, every link of the attachment table
    has a destination and every fetched attachment yields its text. *)
Theorem scrape_text_from_url_concatenates (url : string)
  (response : Response) (text_of : string -> string) :
  outcome (fetch url) = Ok response ->
  (forall link,
     In link (attachment_links (BeautifulSoup (content response))) ->
     exists href,
       get link "href" = Some href
       /\ (not_xades href = true ->
           outcome (get_text_from_attachment (attachment_url url href))
           = Ok (text_of href))) ->
  scrape_text_from_url url
  = (Ok (main_text_of (BeautifulSoup (content response))
         ++ Py.join
              (map text_of
                 (filter not_xades
                    (hrefs (attachment_links
                              (BeautifulSoup (content response))))))),
     url :: map (attachment_url url)
              (filter not_xades
                 (hrefs (attachment_links
                           (BeautifulSoup (content response)))))).
Proof.
  intros Hfetch Hall.
  rewrite (scrape_text_from_url_run url response Hfetch).
  pose proof (attachment_loop_outcome url text_of _ Hall "") as Hout.
  destruct (attachment_loop_requested url
              (attachment_links (BeautifulSoup (content response))) "")
    as (rest & Hreq & Hrest).
  rewrite Hout. rewrite (Hrest _ Hout), app_nil_r in Hreq.
  now rewrite Hreq.
Qed.

Lemma scrape_text_from_url_no_links (url : string) (response : Response) :
  outcome (fetch url) = Ok response ->
  attachment_links (BeautifulSoup (content response)) = [] ->
  scrape_text_from_url url
  = (Ok (main_text_of (BeautifulSoup (content response))), [url]).
Proof.
  intros Hfetch Hnone.
  rewrite (scrape_text_from_url_run url response Hfetch), Hnone.
  cbn [for_each ret outcome requested fst snd].
  now rewrite append_empty_r.
Qed.

(** X7: a page with fewer than two link-bearing tables in its content
    container yields its main text alone, and nothing but the page is
    requested. *)
Theorem scrape_text_from_url_without_attachments (url : string)
  (response : Response) :
  outcome (fetch url) = Ok response ->
  List.length (found_tables (BeautifulSoup (content response))) < 2 ->
  scrape_text_from_url url
  = (Ok (main_text_of (BeautifulSoup (content response))), [url]).
Proof.
  intros Hfetch Hfew.
  apply (scrape_text_from_url_no_links url response Hfetch).
  now apply attachment_links_few.
Qed.

Lemma scrape_attachment_fetch_fails (url texts : string) (link : element)
  (href : string) (e : exn) :
  get link "href" = Some href -> not_xades href = true ->
  outcome (fetch (attachment_url url href)) = Raise e ->
  scrape_attachment url texts link = (Raise e, [attachment_url url href]).
Proof.
  intros Hget Hx Hfetch.
  rewrite (M_eq (scrape_attachment url texts link)).
  rewrite (scrape_attachment_requested _ _ _ _ Hget Hx).
  rewrite (scrape_attachment_fetched _ _ _ _ Hget Hx), outcome_bind.
  now rewrite get_text_from_attachment_dispatch, Hfetch.
Qed.

(** X8: an attachment that cannot be fetched aborts the document.  When the
    links before it are processed and its own request fails, the exception
    of that request is the outcome of [scrape_text_from_url]: neither the
    main text nor the texts gathered so far are returned, and no later link
    is requested. *)
Theorem scrape_text_from_url_aborts (url : string) (response : Response)
  (before after : list element) (link : element) (href texts : string)
  (log : list string) (e : exn) :
  outcome (fetch url) = Ok response ->
  attachment_links (BeautifulSoup (content response))
  = (before ++ link :: after)%list ->
  for_each before "" (scrape_attachment url) = (Ok texts, log) ->
  get link "href" = Some href -> not_xades href = true ->
  outcome (fetch (attachment_url url href)) = Raise e ->
  scrape_text_from_url url
  = (Raise e, url :: (log ++ [attachment_url url href])%list).
Proof.
  intros Hfetch Hlinks Hbefore Hget Hx Hfail.
  rewrite (scrape_text_from_url_run url response Hfetch), Hlinks.
  now rewrite (for_each_abort _ _ _ _ _ _ _ _ _ Hbefore
                 (scrape_attachment_fetch_fails _ _ _ _ _ Hget Hx Hfail)).
Qed.

(** X9: a hyperlink without a destination in the attachment table aborts
    the document with [AttributeError]: the table is searched for [a]
    elements, with or without [href], and the loop calls [startswith] on
    what [get('href')] returns. *)
Theorem scrape_text_from_url_link_without_href (url : string)
  (response : Response) (before after : list element) (link : element)
  (texts : string) (log : list string) :
  outcome (fetch url) = Ok response ->
  attachment_links (BeautifulSoup (content response))
  = (before ++ link :: after)%list ->
  for_each before "" (scrape_attachment url) = (Ok texts, log) ->
  get link "href" = None ->
  scrape_text_from_url url
  = (Raise (AttributeError
              "'NoneType' object has no attribute 'startswith'"),
     url :: log).
Proof.
  intros Hfetch Hlinks Hbefore Hget.
  rewrite (scrape_text_from_url_run url response Hfetch), Hlinks.
  rewrite (for_each_abort (scrape_attachment url) link after
             (AttributeError
                "'NoneType' object has no attribute 'startswith'")
             [] before "" texts log Hbefore).
  - now rewrite app_nil_r.
  - unfold scrape_attachment. now rewrite Hget.
Qed.

End DetailPage.

(** X6 on the report with a PDF, an XHTML file and a signature. *)
Lemma scrape_text_from_url_concatenates_full :
  @scrape_text_from_url (site_libraries full_site) full_url
  = (Ok ("ReportBack" ++ "P1 P2 " ++ "X1 X2"),
     [full_url;
      "https://infostrefa.com/espi/pl/reports/view/attachment/one.pdf";
      "https://www.gpw.pl/two.xhtml"]).
Proof.
  pose (text_of := fun href : string =>
                     if String.eqb href "two.xhtml" then "X1 X2"
                     else "P1 P2 ").
  refine (@scrape_text_from_url_concatenates (site_libraries full_site)
            full_url (ok_response full_html) text_of eq_refl _).
  intros link [<-|[<-|[<-|[]]]]; eexists; (split; [reflexivity|]);
    vm_compute; try reflexivity; discriminate.
Defined.

(** X7 on a page without any table. *)
Lemma scrape_text_from_url_without_attachments_plain :
  @scrape_text_from_url (site_libraries twice_site)
    "https://www.gpw.pl/komunikat?geru_id=7"
  = (Ok "Plain text", ["https://www.gpw.pl/komunikat?geru_id=7"]).
Proof.
  apply (@scrape_text_from_url_without_attachments (site_libraries twice_site)
           "https://www.gpw.pl/komunikat?geru_id=7" (ok_response plain_html)).
  - reflexivity.
  - vm_compute. lia.
Defined.

(** X8 on the report whose second attachment answers 404. *)
Lemma scrape_text_from_url_aborts_gone :
  @scrape_text_from_url (site_libraries gone_site) gone_url
  = (Raise (HTTPError "https://www.gpw.pl/gone.pdf" 404),
     [gone_url; "https://www.gpw.pl/a.pdf"; "https://www.gpw.pl/gone.pdf"]).
Proof.
  apply (@scrape_text_from_url_aborts (site_libraries gone_site) gone_url
           (ok_response gone_html)
           (firstn 1 (attachment_links gone_page))
           (skipn 2 (attachment_links gone_page))
           (nth 1 (attachment_links gone_page) (Element (Comment "") []))
           "gone.pdf" "A" ["https://www.gpw.pl/a.pdf"]);
    reflexivity.
Defined.

(** X9 on the report whose attachment table starts with a bare anchor. *)
Lemma scrape_text_from_url_link_without_href_anchor :
  @scrape_text_from_url (site_libraries anchor_site) anchor_url
  = (Raise (AttributeError
              "'NoneType' object has no attribute 'startswith'"),
     [anchor_url]).
Proof.
  apply (@scrape_text_from_url_link_without_href
           (site_libraries anchor_site) anchor_url (ok_response anchor_html)
           [] (tl (attachment_links anchor_page))
           (hd (Element (Comment "") []) (attachment_links anchor_page))
           "" []);
    reflexivity.
Defined.

(** ** Selection in the tree *)

Lemma node_induction (P : node -> Prop) :
  (forall name attrs contents,
     Forall P contents -> P (Tag name attrs contents)) ->
  (forall s, P (NavigableString s)) ->
  (forall s, P (Comment s)) ->
  forall n, P n.
Proof.
  intros Htag Hstring Hcomment. fix IH 1.
  intros [name attrs contents|s|s].
  - apply Htag. revert contents. fix IHcontents 1.
    intros [|c contents]; constructor; [apply IH|apply IHcontents].
  - apply Hstring.
  - apply Hcomment.
Qed.

(** Every node below [n] has a parent, which is [n] or lies below [n]. *)
Lemma descendants_of_parent (n : node) :
  forall parents e,
    In e (descendants_of parents n) ->
    exists p rest,
      el_parents e = p :: rest
      /\ (Element p rest = Element n parents
          \/ In (Element p rest) (descendants_of parents n)).
Proof.
  induction n as [name attrs contents IH| |] using node_induction;
    intros parents e Hin; [|destruct Hin..].
  cbn [descendants_of] in *.
  apply in_flat_map in Hin as (c & Hc & [<-|Hin]).
  - exists (Tag name attrs contents), parents. split; [reflexivity|now left].
  - rewrite Forall_forall in IH.
    destruct (IH c Hc _ _ Hin) as (p & rest & Hparents & Hwhere).
    exists p, rest. split; [exact Hparents|]. right.
    apply in_flat_map. exists c. split; [exact Hc|].
    destruct Hwhere as [->|Hbelow]; [now left|now right].
Qed.

Lemma soup_descendants_parent (doc : soup) (e : element) :
  In e (soup_descendants doc) ->
  el_parents e = []
  \/ exists p rest,
       el_parents e = p :: rest /\ In (Element p rest) (soup_descendants doc).
Proof.
  unfold soup_descendants. intros Hin.
  apply in_flat_map in Hin as (n & Hn & [<-|Hin]); [now left|].
  right. destruct (descendants_of_parent n _ _ Hin)
    as (p & rest & Hparents & Hwhere).
  exists p, rest. split; [exact Hparents|].
  apply in_flat_map. exists n. split; [exact Hn|].
  destruct Hwhere as [->|Hbelow]; [now left|now right].
Qed.

Lemma matches_snoc (sel : list compound) (c : compound) (e : element) :
  matches (sel ++ [c]) e
  = matches_compound c (el_node e) && matches_rev (rev sel) (el_parents e).
Proof. unfold matches. now rewrite rev_app_distr. Qed.

(** An element selected by [sel > c] has its parent selected by [sel]. *)
Lemma soup_select_child (doc : soup) (sel : list compound) (c : compound)
  (e : element) :
  sel <> [] ->
  In e (soup_select doc (sel ++ [c])) ->
  exists parent, In parent (soup_select doc sel).
Proof.
  intros Hsel Hin. unfold soup_select in *.
  apply filter_In in Hin as [Hin Hmatch].
  rewrite matches_snoc in Hmatch. apply andb_true_iff in Hmatch as [_ Hup].
  destruct (soup_descendants_parent doc e Hin)
    as [Hroot|(p & rest & Hparents & Hparent)].
  - rewrite Hroot in Hup. destruct (rev sel) eqn:Hrev; [|discriminate].
    apply (f_equal (@rev compound)) in Hrev. rewrite rev_involutive in Hrev.
    contradiction.
  - exists (Element p rest). apply filter_In. split; [exact Hparent|].
    unfold matches. cbn [el_node el_parents]. now rewrite <- Hparents.
Qed.

Section NoContainer.
Context `{Libraries}.

(** X10: a page without the content container yields the empty text, and
    nothing but the page is requested, whatever tables and links the page
    holds elsewhere. *)
Theorem scrape_text_from_url_without_container (url : string)
  (response : Response) :
  outcome (fetch url) = Ok response ->
  soup_select_one (BeautifulSoup (content response)) sel_main_text_container
  = None ->
  scrape_text_from_url url = (Ok "", [url]).
Proof.
  intros Hfetch Hnone.
  assert (Hmain : soup_select (BeautifulSoup (content response))
                    sel_main_text_container = []).
  { unfold soup_select_one in Hnone.
    now destruct (soup_select _ sel_main_text_container). }
  assert (Htables : soup_select (BeautifulSoup (content response)) sel_tables
                    = []).
  { destruct (soup_select _ sel_tables) as [|table tables] eqn:E;
      [reflexivity|].
    destruct (soup_select_child (BeautifulSoup (content response))
                sel_main_text_container (tag_ "table") table)
      as [parent Hparent].
    - discriminate.
    - unfold sel_tables in E. rewrite E. now left.
    - rewrite Hmain in Hparent. destruct Hparent. }
  rewrite (scrape_text_from_url_no_links url response Hfetch).
  - unfold main_text_of. now rewrite Hnone.
  - apply attachment_links_few.
    unfold found_tables. rewrite Htables. cbn. lia.
Qed.

End NoContainer.

(** X10 on a page that holds two link tables directly in its body. *)
Lemma scrape_text_from_url_without_container_bare :
  @scrape_text_from_url (site_libraries bare_site) bare_url
  = (Ok "", [bare_url]).
Proof.
  apply (@scrape_text_from_url_without_container (site_libraries bare_site)
           bare_url (ok_response bare_html));
    reflexivity.
Defined.

(** ** The whole run *)

Section Run.
Context `{Libraries}.

Lemma scrape_articles_requested (date : string) :
  requested (scrape_articles date) = [listing_url date].
Proof.
  unfold scrape_articles. rewrite requested_bind.
  cbn [fetch requested snd]. now destruct (outcome (fetch _)).
Qed.

Lemma df_URL_frame (results : list Article) :
  df_URL (pd_DataFrame results)
  = match results with
    | [] => Raise (KeyError "URL")
    | _ :: _ => Ok (map URL results)
    end.
Proof. now destruct results. Qed.

Lemma scrape_articles_frame (date : string) (df : DataFrame) :
  outcome (scrape_articles date) = Ok df -> df = pd_DataFrame (rows df).
Proof.
  unfold scrape_articles. rewrite outcome_bind.
  destruct (outcome (fetch _)) as [response|e]; [|discriminate].
  cbn [ret outcome fst]. intros [= <-].
  now destruct (map _ _).
Qed.

(** One turn of the loop of [scrape_text_from_urls]. *)
Lemma scrape_turn (results : list (string * string)) (url : string) :
  (t <- scrape_text_from_url url ;; ret (dict_set results url t))
  = (match outcome (scrape_text_from_url url) with
     | Ok t => Ok (dict_set results url t)
     | Raise e => Raise e
     end,
     requested (scrape_text_from_url url)).
Proof.
  destruct (scrape_text_from_url url) as [[t|e] log]; cbn; [|reflexivity].
  now rewrite app_nil_r.
Qed.

Lemma scrape_loop_run (urls : list string) :
  (forall v, In v urls -> exists t, outcome (scrape_text_from_url v) = Ok t) ->
  forall d0,
  exists d,
    for_each urls d0
      (fun results url =>
         t <- scrape_text_from_url url ;; ret (dict_set results url t))
    = (Ok d, flat_map (fun v => requested (scrape_text_from_url v)) urls).
Proof.
  induction urls as [|u urls IH]; intros Hall d0.
  - now exists d0.
  - cbn [for_each flat_map]. rewrite scrape_turn.
    destruct (Hall u (or_introl eq_refl)) as [t Ht]. rewrite Ht.
    destruct (IH (fun v Hv => Hall v (or_intror Hv)) (dict_set d0 u t))
      as [d Hd].
    exists d. cbn [bind]. now rewrite Hd.
Qed.

Lemma scrape_loop_requested (urls : list string) :
  forall d0 d,
    outcome (for_each urls d0
               (fun results url =>
                  t <- scrape_text_from_url url ;;
                  ret (dict_set results url t))) = Ok d ->
    requested (for_each urls d0
                 (fun results url =>
                    t <- scrape_text_from_url url ;;
                    ret (dict_set results url t)))
    = flat_map (fun v => requested (scrape_text_from_url v)) urls.
Proof.
  induction urls as [|u urls IH]; intros d0 d; [reflexivity|].
  cbn [for_each flat_map]. rewrite outcome_bind, requested_bind.
  rewrite scrape_turn. cbn [outcome requested fst snd].
  destruct (outcome (scrape_text_from_url u)) as [t|e]; [|discriminate].
  intros Hd. now rewrite (IH _ _ Hd).
Qed.

(** X11: the run stops at the first detail page that cannot be scraped.
    When the listing is read, the pages listed before [u] are scraped and
    the scrape of [u] raises, the script ends with that exception: no record
    is produced, not even for the pages already scraped, and no later page
    is requested. *)
Theorem main_aborts_on_first_failure (date : string) (df : DataFrame)
  (before after : list string) (u : string) (e : exn) :
  outcome (scrape_articles date) = Ok df ->
  map URL (rows df) = (before ++ u :: after)%list ->
  (forall v, In v before ->
     exists t, outcome (scrape_text_from_url v) = Ok t) ->
  outcome (scrape_text_from_url u) = Raise e ->
  main date
  = (Raise e,
     listing_url date
     :: (flat_map (fun v => requested (scrape_text_from_url v)) before
         ++ requested (scrape_text_from_url u))%list).
Proof.
  intros Hdf Hurls Hbefore Hu.
  assert (Hframe : df_URL df = Ok (before ++ u :: after)%list).
  { rewrite (scrape_articles_frame date df Hdf), df_URL_frame.
    destruct (rows df) as [|r rs]; [now destruct before|].
    now rewrite <- Hurls. }
  destruct (scrape_loop_run before Hbefore []) as [d Hd].
  unfold main. rewrite (M_eq (scrape_articles date)).
  rewrite Hdf, scrape_articles_requested. cbn [bind].
  unfold scrape_text_from_urls. rewrite Hframe. cbn [lift bind].
  rewrite (for_each_abort _ u after e
             (requested (scrape_text_from_url u)) before [] d _ Hd).
  - reflexivity.
  - now rewrite scrape_turn, Hu.
Qed.

(** X12: in a run that succeeds the requests are the listing followed by
    the requests of every listed detail page, in listing order; a detail URL
    listed twice is scraped twice. *)
Theorem main_requests_in_listing_order (date : string)
  (data : list OutputRecord) :
  outcome (main date) = Ok data ->
  exists df,
    outcome (scrape_articles date) = Ok df
    /\ requested (main date)
       = listing_url date
         :: flat_map (fun v => requested (scrape_text_from_url v))
              (map URL (rows df)).
Proof.
  unfold main. rewrite outcome_bind, requested_bind.
  rewrite scrape_articles_requested.
  destruct (outcome (scrape_articles date)) as [df|e]; [|discriminate].
  rewrite outcome_bind, requested_bind.
  destruct (outcome (scrape_text_from_urls df)) as [d|e] eqn:Hd;
    [|discriminate].
  intros _. exists df. split; [reflexivity|].
  cbn [ret requested snd app]. rewrite app_nil_r. f_equal.
  unfold scrape_text_from_urls in *.
  rewrite outcome_bind in Hd. rewrite requested_bind.
  unfold df_URL in *.
  destruct (mem "URL" (columns df)); [|discriminate].
  cbn [lift outcome requested fst snd app] in *.
  exact (scrape_loop_requested _ _ _ Hd).
Qed.

End Run.

(** X11 on the listing whose second disclosure answers 500. *)
Lemma main_aborts_on_first_failure_down :
  @main (site_libraries down_site) may7
  = (Raise (HTTPError "https://www.gpw.pl/komunikat?geru_id=8" 500),
     [listing_url may7;
      "https://www.gpw.pl/komunikat?geru_id=7";
      "https://www.gpw.pl/komunikat?geru_id=8"]).
Proof.
  refine (@main_aborts_on_first_failure (site_libraries down_site) may7
            (mkDataFrame ["Title"; "URL"]
               [mkArticle "Seven" "https://www.gpw.pl/komunikat?geru_id=7";
                mkArticle "Eight" "https://www.gpw.pl/komunikat?geru_id=8";
                mkArticle "Nine" "https://www.gpw.pl/komunikat?geru_id=9"])
            ["https://www.gpw.pl/komunikat?geru_id=7"]
            ["https://www.gpw.pl/komunikat?geru_id=9"]
            "https://www.gpw.pl/komunikat?geru_id=8"
            (HTTPError "https://www.gpw.pl/komunikat?geru_id=8" 500)
            eq_refl eq_refl _ eq_refl).
  intros v [<-|[]]. now exists "Plain text".
Defined.

(** X12 on the listing that carries one URL twice: the page is requested
    twice. *)
Lemma main_requests_in_listing_order_twice :
  exists df,
    outcome (@scrape_articles (site_libraries twice_site) may7) = Ok df
    /\ requested (@main (site_libraries twice_site) may7)
       = listing_url may7
         :: flat_map
              (fun v =>
                 requested (@scrape_text_from_url (site_libraries twice_site)
                              v))
              (map URL (rows df)).
Proof.
  apply (@main_requests_in_listing_order (site_libraries twice_site) may7
           [mkRecord "https://www.gpw.pl/komunikat?geru_id=7" "Plain text"]).
  reflexivity.
Defined.

(** ** Trimmed text *)

Lemma isspace_bound (c : ascii) :
  Py.isspace c = true -> nat_of_ascii c <= 32.
Proof.
  unfold Py.isspace. intros Hc.
  apply orb_true_iff in Hc as [Hc|Hc];
    apply andb_true_iff in Hc as [_ Hc]; apply Nat.leb_le in Hc; lia.
Qed.

Lemma isspace3_bound (x y z : nat) :
  Py.isspace3 x y z = true ->
  225 <= x <= 227 /\ 128 <= y < 192 /\ 128 <= z < 192.
Proof.
  unfold Py.isspace3. intros Hs.
  repeat (apply orb_true_iff in Hs as [Hs|Hs]);
    repeat match goal with
           | H : (_ && _)%bool = true |- _ =>
               apply andb_true_iff in H as [? ?]
           | H : (_ || _)%bool = true |- _ =>
               apply orb_true_iff in H as [?|?]
           | H : (_ =? _)%nat = true |- _ => apply Nat.eqb_eq in H
           | H : (_ <=? _)%nat = true |- _ => apply Nat.leb_le in H
           end; lia.
Qed.

Lemma lead_length_bounds (c : ascii) (k : nat) :
  lead_length c = S k ->
  (k = 0 /\ nat_of_ascii c < 128)
  \/ (k = 1 /\ 192 <= nat_of_ascii c < 224)
  \/ (k = 2 /\ 224 <= nat_of_ascii c < 240)
  \/ (k = 3 /\ 240 <= nat_of_ascii c < 248).
Proof.
  unfold lead_length.
  repeat match goal with
         | |- context [(?a <? ?b)%nat] => destruct (Nat.ltb_spec a b)
         end; intros [= <-]; lia || discriminate.
Qed.

Lemma continuation_not_lead (c : ascii) :
  is_continuation c = true -> lead_length c = 0.
Proof.
  unfold is_continuation, lead_length. intros Hc.
  apply andb_true_iff in Hc as [Hlow Hhigh].
  apply Nat.leb_le in Hlow. apply Nat.ltb_lt in Hhigh.
  repeat match goal with
         | |- context [(?a <? ?b)%nat] => destruct (Nat.ltb_spec a b)
         end; lia || reflexivity.
Qed.

(** A blank is a whole character: its first byte announces its length and
    the bytes that follow are continuation bytes. *)
Lemma space_length_lead (c : ascii) (t : string) (k : nat) :
  Py.space_length (String c t) = S k ->
  lead_length c = S k /\ continues k t = true.
Proof.
  cbn [Py.space_length].
  destruct (Py.isspace c) eqn:Hc.
  { intros [= <-]. apply isspace_bound in Hc. split; [|reflexivity].
    unfold lead_length. destruct (Nat.ltb_spec (nat_of_ascii c) 128);
      [reflexivity|lia]. }
  destruct t as [|b t]; [discriminate|].
  destruct ((nat_of_ascii c =? 194)
            && ((nat_of_ascii b =? 133) || (nat_of_ascii b =? 160)))%nat
    eqn:Htwo.
  { intros [= <-]. apply andb_true_iff in Htwo as [Hx Hy].
    apply Nat.eqb_eq in Hx. split.
    - unfold lead_length. rewrite Hx. reflexivity.
    - cbn [continues]. rewrite andb_true_r. unfold is_continuation.
      apply orb_true_iff in Hy as [Hy|Hy]; apply Nat.eqb_eq in Hy;
        rewrite Hy; reflexivity. }
  destruct t as [|d t]; [discriminate|].
  destruct (Py.isspace3 _ _ _) eqn:Hthree; [|discriminate].
  intros [= <-]. apply isspace3_bound in Hthree as (Hx & Hy & Hz). split.
  - unfold lead_length.
    repeat match goal with
           | |- context [(?a <? ?b)%nat] => destruct (Nat.ltb_spec a b)
           end; lia || reflexivity.
  - cbn [continues]. unfold is_continuation.
    destruct (Nat.leb_spec 128 (nat_of_ascii b)); [|lia].
    destruct (Nat.ltb_spec (nat_of_ascii b) 192); [|lia].
    destruct (Nat.leb_spec 128 (nat_of_ascii d)); [|lia].
    destruct (Nat.ltb_spec (nat_of_ascii d) 192); [|lia].
    reflexivity.
Qed.

(** A blank at the head of a string stays one when the string grows. *)
Lemma space_length_app (a b : string) (k : nat) :
  Py.space_length a = S k -> Py.space_length (a ++ b) = S k.
Proof.
  destruct a as [|a0 [|a1 [|a2 a]]]; cbn [Py.space_length append];
    try discriminate.
  - destruct (Py.isspace a0); [trivial|discriminate].
  - destruct (Py.isspace a0); [trivial|].
    destruct (_ && _)%bool; [trivial|discriminate].
  - trivial.
Qed.

(** The head of a framed string is decided inside the string. *)
Lemma space_length_framed (p x : string) :
  utf8_framed p = true -> p <> "" ->
  Py.space_length (p ++ x) = Py.space_length p.
Proof.
  intros Hframed Hne. destruct p as [|c p]; [congruence|].
  unfold utf8_framed in Hframed. cbn [utf8_framed_skip] in Hframed.
  destruct (lead_length c) as [|k] eqn:Hlead; [discriminate|].
  destruct (Py.space_length (String c p ++ x)) as [|j] eqn:Hgrown.
  - destruct (Py.space_length (String c p)) as [|j'] eqn:Hp; [reflexivity|].
    rewrite (space_length_app _ x _ Hp) in Hgrown. discriminate.
  - symmetry.
    change (String c p ++ x) with (String c (p ++ x)) in Hgrown.
    destruct (space_length_lead _ _ _ Hgrown) as [Hlead' _].
    rewrite Hlead in Hlead'. injection Hlead' as ->.
    revert Hgrown. cbn [Py.space_length].
    destruct (Py.isspace c); [trivial|].
    destruct p as [|b p].
    { cbn [utf8_framed_skip] in Hframed. apply Nat.eqb_eq in Hframed.
      subst j. cbn [append].
      destruct x as [|b x]; [discriminate|].
      destruct (_ && _)%bool; [discriminate|].
      destruct x as [|d x]; [discriminate|].
      destruct (Py.isspace3 _ _ _); discriminate. }
    cbn [append]. destruct (_ && _)%bool; [trivial|].
    destruct p as [|d p]; [|trivial].
    cbn [append]. destruct x as [|d x]; [discriminate|].
    destruct (Py.isspace3 _ _ _); [|discriminate].
    intros [= <-]. cbn [utf8_framed_skip] in Hframed.
    apply andb_true_iff in Hframed as [_ Hframed]. discriminate.
Qed.

Lemma lstrip_skip_space (s : string) :
  forall skip, Py.space_length (Py.lstrip_skip skip s) = 0.
Proof.
  induction s as [|c s IH]; intros skip; [reflexivity|].
  cbn [Py.lstrip_skip]. destruct skip as [|k]; [|apply IH].
  destruct (Py.space_length (String c s)) eqn:Hs; [exact Hs|apply IH].
Qed.

Lemma lstrip_fixed (s : string) :
  Py.space_length s = 0 -> Py.lstrip s = s.
Proof.
  destruct s as [|c s]; [reflexivity|]. intros Hs.
  unfold Py.lstrip. cbn [Py.lstrip_skip]. now rewrite Hs.
Qed.

Lemma all_space_skip_app (w : string) :
  Py.all_space w = true ->
  forall a skip,
    Py.all_space_skip skip a = true -> Py.all_space_skip skip (a ++ w) = true.
Proof.
  intros Hw. induction a as [|c a IH]; intros skip Ha.
  - cbn in Ha. apply Nat.eqb_eq in Ha. now subst.
  - cbn [append Py.all_space_skip] in *.
    destruct skip as [|k]; [|now apply IH].
    destruct (Py.space_length (String c a)) as [|k] eqn:Hs; [discriminate|].
    change (String c (a ++ w)) with (String c a ++ w).
    rewrite (space_length_app _ w _ Hs). now apply IH.
Qed.

(** [rstrip] cuts a run of blanks off the end. *)
Lemma rstrip_split (s : string) :
  exists w, s = Py.rstrip s ++ w /\ Py.all_space w = true.
Proof.
  induction s as [|c s (w & Hs & Hw)]; [now exists ""|].
  cbn [Py.rstrip].
  destruct (Py.all_space (String c s)) eqn:Hall.
  - now exists (String c s).
  - exists w. split; [|exact Hw]. cbn [append]. now rewrite <- Hs.
Qed.

Lemma rstrip_idempotent (s : string) : Py.rstrip (Py.rstrip s) = Py.rstrip s.
Proof.
  induction s as [|c s IH]; [reflexivity|]. cbn [Py.rstrip].
  destruct (Py.all_space (String c s)) eqn:Hall; [reflexivity|].
  cbn [Py.rstrip]. rewrite IH.
  destruct (Py.all_space (String c (Py.rstrip s))) eqn:Hcut; [|reflexivity].
  destruct (rstrip_split s) as (w & Hs & Hw).
  pose proof (all_space_skip_app w Hw _ 0 Hcut) as Hwhole.
  cbn [append] in Hwhole. rewrite <- Hs in Hwhole.
  unfold Py.all_space in Hall. congruence.
Qed.

Lemma space_length_rstrip (s : string) :
  Py.space_length s = 0 -> Py.space_length (Py.rstrip s) = 0.
Proof.
  intros Hs.
  destruct (Py.space_length (Py.rstrip s)) as [|k] eqn:Hcut; [reflexivity|].
  destruct (rstrip_split s) as (w & Hsplit & _).
  pose proof (space_length_app _ w _ Hcut) as Hgrown.
  rewrite <- Hsplit in Hgrown. congruence.
Qed.

Lemma strip_space_length (s : string) : Py.space_length (Py.strip s) = 0.
Proof. apply space_length_rstrip, lstrip_skip_space. Qed.

Lemma strip_idempotent (s : string) : Py.strip (Py.strip s) = Py.strip s.
Proof.
  unfold Py.strip at 1.
  rewrite (lstrip_fixed _ (strip_space_length s)).
  apply rstrip_idempotent.
Qed.

Lemma framed_lead (p : string) :
  utf8_framed p = true -> p <> "" ->
  exists c p', p = String c p' /\ is_continuation c = false.
Proof.
  intros Hframed Hne. destruct p as [|c p]; [congruence|].
  exists c, p. split; [reflexivity|].
  unfold utf8_framed in Hframed. cbn [utf8_framed_skip] in Hframed.
  destruct (is_continuation c) eqn:Hc; [|reflexivity].
  now rewrite (continuation_not_lead c Hc) in Hframed.
Qed.

Lemma lstrip_skip_framed (s : string) :
  forall k,
    utf8_framed_skip k s = true -> utf8_framed (Py.lstrip_skip k s) = true.
Proof.
  induction s as [|c s IH]; intros k Hframed; [reflexivity|].
  cbn [Py.lstrip_skip utf8_framed_skip] in *.
  destruct k as [|k].
  - destruct (Py.space_length (String c s)) as [|j] eqn:Hs.
    + unfold utf8_framed. cbn [utf8_framed_skip]. exact Hframed.
    + destruct (space_length_lead _ _ _ Hs) as [Hlead _].
      rewrite Hlead in Hframed. now apply IH.
  - apply andb_true_iff in Hframed as [_ Hframed]. now apply IH.
Qed.

Lemma framed_before_space (w : string) :
  Py.all_space w = true ->
  forall a k, utf8_framed_skip k (a ++ w) = true ->
              utf8_framed_skip k a = true.
Proof.
  intros Hw. induction a as [|c a IH]; intros k Hframed.
  - cbn [append utf8_framed_skip] in *. destruct k as [|k]; [reflexivity|].
    destruct w as [|c w]; [discriminate|].
    cbn [utf8_framed_skip] in Hframed.
    apply andb_true_iff in Hframed as [Hc _].
    unfold Py.all_space in Hw. cbn [Py.all_space_skip] in Hw.
    destruct (Py.space_length (String c w)) as [|j] eqn:Hs; [discriminate|].
    destruct (space_length_lead _ _ _ Hs) as [Hlead _].
    rewrite (continuation_not_lead c Hc) in Hlead. discriminate.
  - cbn [append utf8_framed_skip] in *. destruct k as [|k].
    + destruct (lead_length c); [discriminate|now apply IH].
    + apply andb_true_iff in Hframed as [Hc Hframed].
      rewrite Hc. now apply IH.
Qed.

Lemma strip_framed (s : string) :
  utf8_framed s = true -> utf8_framed (Py.strip s) = true.
Proof.
  intros Hs. unfold Py.strip.
  pose proof (lstrip_skip_framed s 0 Hs) as Hleft. fold (Py.lstrip s) in Hleft.
  destruct (rstrip_split (Py.lstrip s)) as (w & Hsplit & Hw).
  rewrite Hsplit in Hleft.
  exact (framed_before_space w Hw _ 0 Hleft).
Qed.

(** Appending to a string that has no blank at its end leaves no blank
    run at the end, when the appended text starts a character. *)
Lemma all_space_before_word (b : string) :
  Py.all_space b = false ->
  (exists c b', b = String c b' /\ is_continuation c = false) ->
  forall a skip,
    continues skip (a ++ b) = true -> Py.all_space_skip skip (a ++ b) = false.
Proof.
  intros Hb (c0 & b' & -> & Hc0).
  induction a as [|c a IH]; intros skip Hcont.
  - cbn [append] in *. destruct skip as [|k]; [exact Hb|].
    cbn [continues] in Hcont. now rewrite Hc0 in Hcont.
  - cbn [append Py.all_space_skip] in *. destruct skip as [|k].
    + destruct (Py.space_length (String c (a ++ String c0 b'))) as [|j] eqn:Hs;
        [reflexivity|].
      destruct (space_length_lead _ _ _ Hs) as [_ Hcont'].
      now apply IH.
    + cbn [continues] in Hcont. apply andb_true_iff in Hcont as [_ Hcont].
      now apply IH.
Qed.

Lemma rstrip_fixed_not_space (b : string) :
  b <> "" -> Py.rstrip b = b -> Py.all_space b = false.
Proof.
  intros Hne Hfix. destruct b as [|c b]; [congruence|].
  cbn [Py.rstrip] in Hfix.
  destruct (Py.all_space (String c b)); [discriminate|reflexivity].
Qed.

Lemma rstrip_app (a b : string) :
  b <> "" -> Py.rstrip b = b -> utf8_framed b = true ->
  Py.rstrip (a ++ b) = a ++ b.
Proof.
  intros Hne Hfix Hframed. induction a as [|c a IH]; [exact Hfix|].
  cbn [append Py.rstrip]. rewrite IH.
  change (String c (a ++ b)) with (String c a ++ b).
  unfold Py.all_space.
  now rewrite (all_space_before_word b (rstrip_fixed_not_space b Hne Hfix)
                 (framed_lead b Hframed Hne) (String c a) 0 eq_refl).
Qed.

Lemma lstrip_app (a b : string) :
  a <> "" -> Py.space_length a = 0 -> utf8_framed a = true ->
  Py.lstrip (a ++ b) = a ++ b.
Proof.
  intros Hne Hspace Hframed. apply lstrip_fixed.
  now rewrite space_length_framed.
Qed.

Lemma framed_app (a b : string) :
  utf8_framed b = true ->
  forall k, utf8_framed_skip k a = true -> utf8_framed_skip k (a ++ b) = true.
Proof.
  intros Hb. revert a. induction a as [|c a IH]; intros k Ha.
  - cbn in Ha. apply Nat.eqb_eq in Ha. now subst.
  - cbn [append utf8_framed_skip] in *. destruct k as [|k].
    + destruct (lead_length c); [discriminate|now apply IH].
    + apply andb_true_iff in Ha as [Hc Ha]. rewrite Hc. now apply IH.
Qed.

(** Trimmed pieces that are whole characters join into a trimmed text. *)
Lemma join_trimmed (l : list string) :
  Forall (fun p => Py.strip p = p /\ p <> "" /\ utf8_framed p = true) l ->
  Py.space_length (Py.join l) = 0
  /\ Py.rstrip (Py.join l) = Py.join l
  /\ utf8_framed (Py.join l) = true
  /\ (l <> [] -> Py.join l <> "").
Proof.
  induction 1 as [|p l (Hp & Hne & Hframed) Hl (IHs & IHr & IHf & IHne)].
  - repeat split. congruence.
  - assert (Hspace : Py.space_length p = 0).
    { rewrite <- Hp. apply strip_space_length. }
    assert (Hright : Py.rstrip p = p).
    { rewrite <- Hp. unfold Py.strip. apply rstrip_idempotent. }
    rewrite join_cons. repeat split.
    + now rewrite space_length_framed.
    + destruct l as [|q l].
      * cbn. now rewrite append_empty_r.
      * apply rstrip_app; [apply IHne; discriminate|exact IHr|exact IHf].
    + now apply framed_app.
    + intros _. destruct p; [congruence|discriminate].
Qed.

Lemma get_text_strip_trimmed (e : element) :
  Forall (fun t => utf8_framed t = true) (strings_of e) ->
  Py.strip (get_text_strip e) = get_text_strip e.
Proof.
  intros Hframed. unfold get_text_strip.
  destruct (join_trimmed
              (filter (fun s => negb (String.eqb s ""))
                      (map Py.strip (strings_of e)))) as (Hl & Hr & _).
  - apply Forall_forall. intros p Hp.
    apply filter_In in Hp as [Hp Hne].
    apply in_map_iff in Hp as (t & <- & Ht).
    rewrite Forall_forall in Hframed.
    split; [apply strip_idempotent|]. split.
    + now apply negb_true_iff, String.eqb_neq in Hne.
    + apply strip_framed, Hframed, Ht.
  - unfold Py.strip at 1. now rewrite (lstrip_fixed _ Hl), Hr.
Qed.

Lemma rows_frame (results : list Article) :
  rows (pd_DataFrame results) = results.
Proof. now destruct results. Qed.

Section Trimmed.
Context `{Libraries}.

(** X13: the main text of a page carries no leading or trailing
    whitespace: trimming it again changes nothing.  Text nodes that hold
    only whitespace vanish from it.  The text nodes of the container are
    taken to be UTF-8 text, that is, made of whole characters. *)
Theorem main_text_trimmed (page : soup) :
  (forall c,
     soup_select_one page sel_main_text_container = Some c ->
     Forall (fun t => utf8_framed t = true) (strings_of c)) ->
  Py.strip (main_text_of page) = main_text_of page.
Proof.
  intros Hframed. unfold main_text_of.
  destruct (soup_select_one page sel_main_text_container) as [c|];
    [|reflexivity].
  now apply get_text_strip_trimmed, Hframed.
Qed.

(** X14: the listing frame has one row per link matched on the listing
    page, in document order and without deduplication: its URLs are the
    destinations of the links joined to the listing URL, and every title is
    trimmed. *)
Theorem scrape_articles_rows (date : string) (df : DataFrame) :
  outcome (scrape_articles date) = Ok df ->
  exists response,
    outcome (fetch (listing_url date)) = Ok response
    /\ map URL (rows df)
       = map (fun article => urljoin (listing_url date) (get article "href"))
           (soup_select (BeautifulSoup (content response)) sel_articles)
    /\ (forall row, In row (rows df) -> Py.strip (Title row) = Title row).
Proof.
  unfold scrape_articles. rewrite outcome_bind.
  destruct (outcome (fetch (listing_url date))) as [response|e];
    [|discriminate].
  cbn [ret outcome fst]. intros [= <-]. exists response.
  split; [reflexivity|]. rewrite rows_frame. split.
  - now rewrite map_map.
  - intros row Hrow. apply in_map_iff in Hrow as (a & <- & _).
    cbn [Title]. apply strip_idempotent.
Qed.

End Trimmed.

(** X13 on a page in Polish with no-break and wide blanks around its
    text. *)
Lemma main_text_trimmed_polish :
  Py.strip (main_text_of polish_page) = main_text_of polish_page.
Proof.
  apply main_text_trimmed. intros c Hc.
  vm_compute in Hc. injection Hc as <-.
  repeat constructor.
Defined.

(** X14 on the listing that carries one URL twice. *)
Lemma scrape_articles_rows_twice :
  exists response,
    outcome (@fetch (site_libraries twice_site) (listing_url may7))
    = Ok response
    /\ map URL [mkArticle "First" "https://www.gpw.pl/komunikat?geru_id=7";
                mkArticle "Again" "https://www.gpw.pl/komunikat?geru_id=7"]
       = map (fun article =>
                @urljoin (site_libraries twice_site) (listing_url may7)
                  (get article "href"))
           (soup_select
              (@BeautifulSoup (site_libraries twice_site) (content response))
              sel_articles)
    /\ (forall row,
          In row [mkArticle "First" "https://www.gpw.pl/komunikat?geru_id=7";
                  mkArticle "Again" "https://www.gpw.pl/komunikat?geru_id=7"]
          -> Py.strip (Title row) = Title row).
Proof.
  apply (@scrape_articles_rows (site_libraries twice_site) may7
           (mkDataFrame ["Title"; "URL"]
              [mkArticle "First" "https://www.gpw.pl/komunikat?geru_id=7";
               mkArticle "Again" "https://www.gpw.pl/komunikat?geru_id=7"])).
  reflexivity.
Defined.

(** * Properties of the summarising scripts *)

Module AgentProperties.
Import Agents.
Local Open Scope agent_scope.

Lemma result_of_bind {A B} (m : Run A) (f : A -> Run B) :
  result_of (bind m f)
  = match result_of m with
    | Returned a => result_of (f a)
    | Raised e => Raised e
    end.
Proof.
  destruct m as [[a|e] log]; simpl; [|reflexivity].
  now destruct (f a).
Qed.

Lemma events_bind {A B} (m : Run A) (f : A -> Run B) :
  events (bind m f)
  = (events m ++ match result_of m with
                 | Returned a => events (f a)
                 | Raised _ => []
                 end)%list.
Proof.
  destruct m as [[a|e] log]; simpl.
  - now destruct (f a).
  - now rewrite app_nil_r.
Qed.

Lemma Run_eq {A} (m : Run A) : m = (result_of m, events m).
Proof. now destruct m. Qed.

Lemma bind_ret_r {A} (m : Run A) : bind m (fun a => ret a) = m.
Proof.
  destruct m as [[a|e] log]; simpl; [|reflexivity].
  now rewrite app_nil_r.
Qed.

Lemma for_each_events {A S} (P : event -> Prop) (body : S -> A -> Run S) :
  (forall acc x, Forall P (events (body acc x))) ->
  forall l acc, Forall P (events (for_each l acc body)).
Proof.
  intros Hbody. induction l as [|x l IH]; intros acc; [constructor|].
  cbn [for_each]. rewrite events_bind. apply Forall_app. split.
  - apply Hbody.
  - destruct (result_of (body acc x)); [apply IH|constructor].
Qed.

Section Scripts.
Context `{Services}.

Lemma get_chat_completion_events (messages : list message) (model : string) :
  events (get_chat_completion messages model)
  = [ChatCompletion model messages 0].
Proof. reflexivity. Qed.

Lemma get_chat_completion_first (messages : list message) (model : string)
  (c : option string) (rest : list (option string)) :
  chat_completions_create model messages 0 = Returned (c :: rest) ->
  get_chat_completion messages model
  = (Returned c, [ChatCompletion model messages 0]).
Proof. unfold get_chat_completion. now intros ->. Qed.

(** The messages [summarize_article] sends for a text. *)
Lemma summarize_one_events (results : list json) (article : json) :
  Forall (fun ev => is_completion ev = true)
         (events (SingleAgent.summarize_one results article)).
Proof.
  unfold SingleAgent.summarize_one.
  rewrite events_bind. cbn [lift events snd app result_of fst].
  destruct (subscript article "url") as [url|e]; [|constructor].
  rewrite events_bind. cbn [lift events snd app result_of fst].
  destruct (subscript article "content") as [content|e]; [|constructor].
  rewrite events_bind. apply Forall_app. split.
  - unfold SingleAgent.summarize_article.
    rewrite get_chat_completion_events. now repeat constructor.
  - destruct (result_of _); constructor.
Qed.

Lemma dump_to_file_run (path : string) (value : json) (indent : nat) :
  dump_to_file path value indent
  = match open_for_writing path with
    | Some e => (Raised e, [])
    | None => (Returned tt, [Dump path value indent])
    end.
Proof. unfold dump_to_file. now destruct (open_for_writing path). Qed.

(** X15: [summarize_articles_from_file] writes its output only when every
    article has been summarised.  A run that succeeds ends with its single
    write, of a list, to the output path, after nothing but completions; a
    run that raises has written nothing. *)
Theorem single_agent_writes_on_success_only
  (input_file_path output_file_path : string) :
  match result_of (SingleAgent.summarize_articles_from_file
                     input_file_path output_file_path) with
  | Returned _ =>
      exists calls results,
        events (SingleAgent.summarize_articles_from_file
                  input_file_path output_file_path)
        = (calls ++ [Dump output_file_path (JArray results) 4])%list
        /\ Forall (fun ev => is_completion ev = true) calls
  | Raised _ =>
      Forall (fun ev => is_completion ev = true)
             (events (SingleAgent.summarize_articles_from_file
                        input_file_path output_file_path))
  end.
Proof.
  unfold SingleAgent.summarize_articles_from_file.
  rewrite result_of_bind, events_bind.
  unfold load_json_file. cbn [lift result_of events fst snd app].
  destruct (json_load input_file_path) as [data|e]; [|constructor].
  rewrite result_of_bind, events_bind.
  set (gathered := match data with
                   | JObject _ => SingleAgent.summarize_one [] data
                   | JArray articles =>
                       for_each articles [] SingleAgent.summarize_one
                   | _ => raise (ValueError
                                   "Unsupported JSON format. Expected list or dict.")
                   end).
  assert (Hcalls : Forall (fun ev => is_completion ev = true)
                          (events gathered)).
  { subst gathered. destruct data; try constructor.
    - apply for_each_events. apply summarize_one_events.
    - apply summarize_one_events. }
  destruct (result_of gathered) as [results|e].
  - rewrite dump_to_file_run.
    destruct (open_for_writing output_file_path) as [e|];
      cbn [result_of events fst snd].
    + now rewrite app_nil_r.
    + now exists (events gathered), results.
  - now rewrite app_nil_r.
Qed.

(** One turn of the loop on a well-formed article. *)
Lemma summarize_one_run (results : list json) (article url content : json)
  (summary : option string) (rest : list (option string)) :
  subscript article "url" = Returned url ->
  subscript article "content" = Returned content ->
  chat_completions_create "gpt-4-turbo"
    [Message "system" (JString SingleAgent.system_prompt);
     Message "user" content] 0
  = Returned (summary :: rest) ->
  SingleAgent.summarize_one results article
  = (Returned (results ++ [JObject [("url", url);
                                    ("summary", json_of_content summary)]])%list,
     [ChatCompletion "gpt-4-turbo"
        [Message "system" (JString SingleAgent.system_prompt);
         Message "user" content] 0]).
Proof.
  intros Hurl Hcontent Hchat. unfold SingleAgent.summarize_one.
  rewrite Hurl, Hcontent. cbn [lift bind].
  unfold SingleAgent.summarize_article, SingleAgent.default_model.
  now rewrite (get_chat_completion_first _ _ _ _ Hchat).
Qed.

Lemma summarize_loop_run (url_of content_of : json -> json)
  (summary_of : json -> option string) (articles : list json) :
  (forall article, In article articles ->
     subscript article "url" = Returned (url_of article)
     /\ subscript article "content" = Returned (content_of article)
     /\ exists rest,
          chat_completions_create "gpt-4-turbo"
            [Message "system" (JString SingleAgent.system_prompt);
             Message "user" (content_of article)] 0
          = Returned (summary_of article :: rest)) ->
  forall results,
    for_each articles results SingleAgent.summarize_one
    = (Returned
         (results
          ++ map (fun article =>
                    JObject [("url", url_of article);
                             ("summary",
                              json_of_content (summary_of article))])
                 articles)%list,
       map (fun article =>
              ChatCompletion "gpt-4-turbo"
                [Message "system" (JString SingleAgent.system_prompt);
                 Message "user" (content_of article)] 0)
           articles).
Proof.
  induction articles as [|article articles IH]; intros Hall results.
  - cbn. now rewrite app_nil_r.
  - destruct (Hall article (or_introl eq_refl))
      as (Hurl & Hcontent & rest & Hchat).
    cbn [for_each map].
    rewrite (summarize_one_run _ _ _ _ _ _ Hurl Hcontent Hchat).
    cbn [bind].
    rewrite (IH (fun a Ha => Hall a (or_intror Ha))).
    now rewrite <- app_assoc.
Qed.

(** X16: a list of articles is summarised one by one, in order.  When every
    article is a dictionary with [url] and [content], every completion
    returns a choice and the output can be opened, the run asks for one
    completion per article, with the model gpt-4-turbo at temperature 0, and
    then writes one [{"url", "summary"}] object per article, in the order of
    the input and with the URLs of the input. *)
Theorem single_agent_summarizes_list
  (input_file_path output_file_path : string) (articles : list json)
  (url_of content_of : json -> json) (summary_of : json -> option string) :
  json_load input_file_path = Returned (JArray articles) ->
  (forall article, In article articles ->
     subscript article "url" = Returned (url_of article)
     /\ subscript article "content" = Returned (content_of article)
     /\ exists rest,
          chat_completions_create "gpt-4-turbo"
            [Message "system" (JString SingleAgent.system_prompt);
             Message "user" (content_of article)] 0
          = Returned (summary_of article :: rest)) ->
  open_for_writing output_file_path = None ->
  SingleAgent.summarize_articles_from_file input_file_path output_file_path
  = (Returned tt,
     (map (fun article =>
             ChatCompletion "gpt-4-turbo"
               [Message "system" (JString SingleAgent.system_prompt);
                Message "user" (content_of article)] 0)
          articles
      ++ [Dump output_file_path
            (JArray
               (map (fun article =>
                       JObject [("url", url_of article);
                                ("summary",
                                 json_of_content (summary_of article))])
                    articles)) 4])%list).
Proof.
  intros Hload Hall Hopen.
  unfold SingleAgent.summarize_articles_from_file, load_json_file.
  rewrite Hload. cbn [lift bind].
  rewrite (summarize_loop_run url_of content_of summary_of articles Hall []).
  cbn [bind app]. now rewrite dump_to_file_run, Hopen.
Qed.

(** X17: a file that holds a single article is treated as the list of that
    one article: the two runs ask for the same completion and write the
    same output. *)
Theorem single_agent_dict_as_list (one_path list_path output : string)
  (members : list (string * json)) :
  json_load one_path = Returned (JObject members) ->
  json_load list_path = Returned (JArray [JObject members]) ->
  SingleAgent.summarize_articles_from_file one_path output
  = SingleAgent.summarize_articles_from_file list_path output.
Proof.
  intros Hone Hlist.
  unfold SingleAgent.summarize_articles_from_file, load_json_file.
  rewrite Hone, Hlist. cbn [lift bind for_each].
  now rewrite bind_ret_r.
Qed.

(** X18: a file that holds neither a dictionary nor a list is refused with
    [ValueError] before any completion is asked for, and nothing is
    written. *)
Theorem single_agent_unsupported_format (input output : string)
  (data : json) :
  json_load input = Returned data ->
  (forall members, data <> JObject members) ->
  (forall articles, data <> JArray articles) ->
  SingleAgent.summarize_articles_from_file input output
  = (Raised (ValueError "Unsupported JSON format. Expected list or dict."),
     []).
Proof.
  intros Hload Hobject Harray.
  unfold SingleAgent.summarize_articles_from_file, load_json_file.
  rewrite Hload. cbn [lift bind].
  destruct data as [|b|n|s|items|members]; try reflexivity.
  - now destruct (Harray items).
  - now destruct (Hobject members).
Qed.

(** X19: the single-agent script on the corpus of the scraper: one summary
    per record of the corpus, in corpus order, under the URL of the
    record. *)
Theorem single_agent_on_corpus (input output : string)
  (data : list OutputRecord) (summary_of : string -> option string) :
  json_load input = Returned (corpus_json data) ->
  (forall r, In r data ->
     exists rest,
       chat_completions_create "gpt-4-turbo"
         [Message "system" (JString SingleAgent.system_prompt);
          Message "user" (JString (rec_content r))] 0
       = Returned (summary_of (rec_content r) :: rest)) ->
  open_for_writing output = None ->
  SingleAgent.summarize_articles_from_file input output
  = (Returned tt,
     (map (fun r =>
             ChatCompletion "gpt-4-turbo"
               [Message "system" (JString SingleAgent.system_prompt);
                Message "user" (JString (rec_content r))] 0) data
      ++ [Dump output
            (JArray
               (map (fun r =>
                       JObject [("url", JString (rec_url r));
                                ("summary",
                                 json_of_content
                                   (summary_of (rec_content r)))])
                    data)) 4])%list).
Proof.
  intros Hload Hall Hopen.
  unfold SingleAgent.summarize_articles_from_file, load_json_file.
  rewrite Hload. unfold corpus_json. cbn [lift bind].
  pose (url_of := fun article => match subscript article "url" with
                                 | Returned v => v
                                 | Raised _ => JNull
                                 end).
  pose (content_of := fun article =>
                        match subscript article "content" with
                        | Returned v => v
                        | Raised _ => JNull
                        end).
  pose (text_of := fun article => match content_of article with
                                  | JString s => summary_of s
                                  | _ => None
                                  end).
  rewrite (summarize_loop_run url_of content_of text_of).
  - cbn [bind app]. rewrite dump_to_file_run, Hopen.
    now rewrite !map_map.
  - intros article Hin. apply in_map_iff in Hin as (r & <- & Hr).
    repeat split. exact (Hall r Hr).
Qed.

(** X20: the multi-agent script cannot read the corpus of the scraper:
    the corpus is a list, [data['content']] raises [TypeError], no completion
    is asked for and nothing is written. *)
Theorem multi_agent_on_corpus (file_path output model : string)
  (data : list OutputRecord) :
  json_load file_path = Returned (corpus_json data) ->
  MultiAgent.summarize_and_refine_article file_path output model
  = (Raised (TypeError (corpus_json data)), []).
Proof.
  intros Hload.
  unfold MultiAgent.summarize_and_refine_article, load_json_file.
  now rewrite Hload.
Qed.

(** X21: the multi-agent script on one article.  It asks for three
    completions, all with the model it was given: the summary of the
    content, the auditor's feedback on content and summary, and the
    refinement from content, feedback and summary; it writes the refinement
    alone, as [{"summary": ...}]. *)
Theorem multi_agent_three_completions (file_path output model : string)
  (data text : json) (summary feedback refined : option string)
  (rest1 rest2 rest3 : list (option string)) :
  json_load file_path = Returned data ->
  subscript data "content" = Returned text ->
  chat_completions_create model
    [Message "system" (JString MultiAgent.first_agent_prompt);
     Message "user" text] 0
  = Returned (summary :: rest1) ->
  chat_completions_create model
    [Message "system" (JString MultiAgent.second_agent_prompt);
     Message "user" (JString (MultiAgent.audit_request text summary))] 0
  = Returned (feedback :: rest2) ->
  chat_completions_create model
    [Message "system" (JString MultiAgent.final_agent_prompt);
     Message "user"
       (JString (MultiAgent.refine_request text feedback summary))] 0
  = Returned (refined :: rest3) ->
  open_for_writing output = None ->
  MultiAgent.summarize_and_refine_article file_path output model
  = (Returned tt,
     [ChatCompletion model
        [Message "system" (JString MultiAgent.first_agent_prompt);
         Message "user" text] 0;
      ChatCompletion model
        [Message "system" (JString MultiAgent.second_agent_prompt);
         Message "user" (JString (MultiAgent.audit_request text summary))] 0;
      ChatCompletion model
        [Message "system" (JString MultiAgent.final_agent_prompt);
         Message "user"
           (JString (MultiAgent.refine_request text feedback summary))] 0;
      Dump output (JObject [("summary", json_of_content refined)]) 4]).
Proof.
  intros Hload Htext H1 H2 H3 Hopen.
  unfold MultiAgent.summarize_and_refine_article, load_json_file.
  rewrite Hload. cbn [lift bind]. rewrite Htext. cbn [lift bind].
  unfold MultiAgent.refine_summary_with_feedback.
  rewrite (get_chat_completion_first _ _ _ _ H1). cbn [bind].
  rewrite (get_chat_completion_first _ _ _ _ H2). cbn [bind].
  rewrite (get_chat_completion_first _ _ _ _ H3). cbn [bind ret app].
  now rewrite dump_to_file_run, Hopen.
Qed.

Lemma agent_for_each_abort {A S} (body : S -> A -> Run S) (x : A)
  (after : list A) (e : error) (log_x : list event) (before : list A) :
  forall acc acc' log,
    for_each before acc body = (Returned acc', log) ->
    body acc' x = (Raised e, log_x) ->
    for_each (before ++ x :: after) acc body = (Raised e, (log ++ log_x)%list).
Proof.
  induction before as [|y before IH]; intros acc acc' log Hbefore Hx.
  - cbn in Hbefore. injection Hbefore as <- <-.
    cbn [app for_each]. now rewrite Hx.
  - cbn [app for_each] in *.
    destruct (body acc y) as [[acc1|e1] log1]; cbn [bind] in *;
      [|discriminate].
    destruct (for_each before acc1 body) as [r2 log2] eqn:Hrest.
    injection Hbefore as -> <-.
    rewrite (IH acc1 acc' log2 Hrest Hx).
    now rewrite app_assoc.
Qed.

(** X22: a malformed article stops the run where it stands.  When the
    articles before it are summarised and it has no [url], or no [content],
    or is not a dictionary, the run raises the [KeyError] or [TypeError] of
    that access: the completions already obtained are discarded, nothing is
    written, and no completion is asked for the articles that follow. *)
Theorem single_agent_stops_at_malformed_article
  (input_file_path output_file_path : string) (before after : list json)
  (bad : json) (e : error)
  (url_of content_of : json -> json) (summary_of : json -> option string) :
  json_load input_file_path = Returned (JArray (before ++ bad :: after)) ->
  (forall article, In article before ->
     subscript article "url" = Returned (url_of article)
     /\ subscript article "content" = Returned (content_of article)
     /\ exists rest,
          chat_completions_create "gpt-4-turbo"
            [Message "system" (JString SingleAgent.system_prompt);
             Message "user" (content_of article)] 0
          = Returned (summary_of article :: rest)) ->
  (subscript bad "url" = Raised e
   \/ (exists url, subscript bad "url" = Returned url)
      /\ subscript bad "content" = Raised e) ->
  SingleAgent.summarize_articles_from_file input_file_path output_file_path
  = (Raised e,
     map (fun article =>
            ChatCompletion "gpt-4-turbo"
              [Message "system" (JString SingleAgent.system_prompt);
               Message "user" (content_of article)] 0)
         before).
Proof.
  intros Hload Hbefore Hbad.
  unfold SingleAgent.summarize_articles_from_file, load_json_file.
  rewrite Hload. cbn [lift bind].
  rewrite (agent_for_each_abort SingleAgent.summarize_one bad after e []
             before [] _ _
             (summarize_loop_run url_of content_of summary_of before
                Hbefore [])).
  - cbn [bind]. now rewrite app_nil_r.
  - unfold SingleAgent.summarize_one.
    destruct Hbad as [Hurl|[[url Hurl] Hcontent]].
    + now rewrite Hurl.
    + now rewrite Hurl, Hcontent.
Qed.

End Scripts.

(** X22 on a file whose second article has no content. *)
Lemma single_agent_stops_at_malformed_article_broken :
  @SingleAgent.summarize_articles_from_file echo_services
    "broken.json" "summary.json"
  = (Raised (KeyError "content"),
     [ChatCompletion "gpt-4-turbo"
        [Message "system" (JString SingleAgent.system_prompt);
         Message "user" (JString "One")] 0]).
Proof.
  pose (field := fun key (article : json) =>
                   match subscript article key with
                   | Returned v => v
                   | Raised _ => JNull
                   end).
  refine (@single_agent_stops_at_malformed_article echo_services
            "broken.json" "summary.json"
            [JObject [("url", JString "u1"); ("content", JString "One")]]
            [JObject [("url", JString "u3"); ("content", JString "Three")]]
            (JObject [("url", JString "u2")]) (KeyError "content")
            (field "url") (field "content")
            (fun _ => Some "Summary of One") eq_refl _ _).
  - intros article [<-|[]]. repeat split. now exists [].
  - right. split; [now exists (JString "u2")|reflexivity].
Defined.

(** X16 on a file of two articles. *)
Lemma single_agent_summarizes_list_two :
  result_of (@SingleAgent.summarize_articles_from_file echo_services
               "scraped_articles.json" "summary.json")
  = Returned tt.
Proof.
  pose (field := fun key (article : json) =>
                   match subscript article key with
                   | Returned v => v
                   | Raised _ => JNull
                   end).
  pose (summary_of := fun article =>
                        match field "content" article with
                        | JString s => Some ("Summary of " ++ s)
                        | _ => None
                        end).
  rewrite (@single_agent_summarizes_list echo_services
             "scraped_articles.json" "summary.json" _
             (field "url") (field "content") summary_of eq_refl).
  - reflexivity.
  - intros article [<-|[<-|[]]]; repeat split; now exists [].
  - reflexivity.
Defined.

(** X17 on [scraped_article_single.json] and the list of its article. *)
Lemma single_agent_dict_as_list_one :
  @SingleAgent.summarize_articles_from_file echo_services
    "scraped_article_single.json" "summary.json"
  = @SingleAgent.summarize_articles_from_file echo_services
      "one_article_list.json" "summary.json".
Proof.
  apply (@single_agent_dict_as_list echo_services
           "scraped_article_single.json" "one_article_list.json"
           "summary.json"
           [("url", JString "https://www.gpw.pl/komunikat?geru_id=1");
            ("content", JString "One")]);
    reflexivity.
Defined.

(** X18 on a file that holds a number. *)
Lemma single_agent_unsupported_format_number :
  @SingleAgent.summarize_articles_from_file echo_services
    "number.json" "summary.json"
  = (Raised (ValueError "Unsupported JSON format. Expected list or dict."),
     []).
Proof.
  apply (@single_agent_unsupported_format echo_services "number.json"
           "summary.json" (JNumber "42") eq_refl); discriminate.
Defined.

(** X19 on a corpus of two records. *)
Lemma single_agent_on_corpus_two :
  result_of (@SingleAgent.summarize_articles_from_file echo_services
               "scraped_articles.json" "summary.json")
  = Returned tt.
Proof.
  rewrite (@single_agent_on_corpus echo_services
             "scraped_articles.json" "summary.json"
             [mkRecord "https://www.gpw.pl/komunikat?geru_id=1" "One";
              mkRecord "https://www.gpw.pl/komunikat?geru_id=2" "Two"]
             (fun s => Some ("Summary of " ++ s)) eq_refl).
  - reflexivity.
  - intros r [<-|[<-|[]]]; now exists [].
  - reflexivity.
Defined.

(** X20 on the same corpus. *)
Lemma multi_agent_on_corpus_two :
  @MultiAgent.summarize_and_refine_article echo_services
    "scraped_articles.json" "multi_agent_summary.json" "gpt-4-turbo"
  = (Raised (TypeError
               (corpus_json
                  [mkRecord "https://www.gpw.pl/komunikat?geru_id=1" "One";
                   mkRecord "https://www.gpw.pl/komunikat?geru_id=2" "Two"])),
     []).
Proof.
  apply (@multi_agent_on_corpus echo_services "scraped_articles.json"
           "multi_agent_summary.json" "gpt-4-turbo"
           [mkRecord "https://www.gpw.pl/komunikat?geru_id=1" "One";
            mkRecord "https://www.gpw.pl/komunikat?geru_id=2" "Two"]).
  reflexivity.
Defined.

(** X21 on the script itself. *)
Lemma multi_agent_three_completions_main :
  result_of (@MultiAgent.main echo_services) = Returned tt
  /\ List.length (events (@MultiAgent.main echo_services)) = 4.
Proof.
  unfold MultiAgent.main.
  rewrite (@multi_agent_three_completions echo_services
             "scraped_article_single.json" "multi_agent_summary.json"
             "gpt-4-turbo" _ (JString "One") _ _ _ [] [] []
             eq_refl eq_refl eq_refl eq_refl eq_refl eq_refl).
  split; reflexivity.
Defined.

End AgentProperties.
